(** * Geograph update bot: the reconciliation engine of [update_metadata.py]

    A shallow embedding of [scripts/update_metadata.py]: the slot decision
    ([should_set_location]), the credit-line freshness test
    ([unmodified_on_geograph_since_upload]), the orchestration of one page
    ([process_page]) with its restart on revision drift, the edit summary,
    and the per-item exception boundary ([treat_page]).

    The modules [location], [creditline] and [gubutil], the wiki client and
    the parser are collaborators of the script; they enter as the interface
    [Collaborators] below. *)

From Stdlib Require Import ZArith QArith Qabs String Ascii List Bool Lia.
From stdpp Require Import base option gmap strings pretty.
Import ListNotations.

Local Open Scope Z_scope.
Local Open Scope string_scope.

(** ** Python primitives used by the script *)

Module Py.

(** [str.isspace] on the ASCII range: TAB..CR, FS..US and the space. *)
Definition isspace (c : ascii) : bool :=
  let n := nat_of_ascii c in
  ((9 <=? n)%nat && (n <=? 13)%nat) || ((28 <=? n)%nat && (n <=? 32)%nat).

Fixpoint lstrip (s : string) : string :=
  match s with
  | String c r => if isspace c then lstrip r else s
  | EmptyString => EmptyString
  end.

Fixpoint rstrip (s : string) : string :=
  match s with
  | String c r =>
      match rstrip r with
      | EmptyString => if isspace c then EmptyString else String c EmptyString
      | r' => String c r'
      end
  | EmptyString => EmptyString
  end.

(** [s.strip()] *)
Definition strip (s : string) : string := rstrip (lstrip s).

Definition digit (c : ascii) : option Z :=
  let n := nat_of_ascii c in
  if ((48 <=? n)%nat && (n <=? 57)%nat) then Some (Z.of_nat n - 48) else None.

(** Decimal digits, with single underscores allowed between digits. *)
Fixpoint digits (acc : Z) (after_digit : bool) (s : string) : option Z :=
  match s with
  | EmptyString => if after_digit then Some acc else None
  | String c r =>
      match digit c with
      | Some d => digits (10 * acc + d) true r
      | None =>
          if Ascii.eqb c "_" then
            if after_digit then digits acc false r else None
          else None
      end
  end.

(** [int(s)] for a string in base ten; [None] stands for [ValueError]. *)
Definition int (s : string) : option Z :=
  match strip s with
  | String "-" r => Z.opp <$> digits 0 false r
  | String "+" r => digits 0 false r
  | r => digits 0 false r
  end.

Definition upper (c : ascii) : ascii :=
  let n := nat_of_ascii c in
  if ((97 <=? n)%nat && (n <=? 122)%nat) then ascii_of_nat (n - 32) else c.

Definition lower (c : ascii) : ascii :=
  let n := nat_of_ascii c in
  if ((65 <=? n)%nat && (n <=? 90)%nat) then ascii_of_nat (n + 32) else c.

Fixpoint map_string (f : ascii -> ascii) (s : string) : string :=
  match s with
  | String c r => String (f c) (map_string f r)
  | EmptyString => EmptyString
  end.

(** [s.capitalize()] *)
Definition capitalize (s : string) : string :=
  match s with
  | String c r => String (upper c) (map_string lower r)
  | EmptyString => EmptyString
  end.

(** [c in s] for a one-character string [c]. *)
Fixpoint contains (c : ascii) (s : string) : bool :=
  match s with
  | String d r => Ascii.eqb c d || contains c r
  | EmptyString => false
  end.

(** A float that is neither NaN nor infinite is a rational. *)
Definition float := Q.

(** [x < n] for a float [x] and an integer [n]; Python compares exactly. *)
Definition lt_int (x : float) (n : Z) : bool := negb (Qle_bool (inject_Z n) x).

(** ["%d" % x] for a float: truncation towards zero. *)
Definition format_d (x : float) : string :=
  pretty (Z.quot (Qnum x) (Zpos (Qden x))).

(** Nearest integer, ties to even. *)
Definition round_half_even (x : Q) : Z :=
  let n := Qnum x in
  let d := Zpos (Qden x) in
  let q := n / d in
  let r := n mod d in
  match 2 * r ?= d with
  | Lt => q
  | Gt => q + 1
  | Eq => if Z.even q then q else q + 1
  end.

(** ["%.1f" % x] *)
Definition format_1f (x : float) : string :=
  let t := round_half_even (Qabs x * inject_Z 10)%Q in
  (if Qle_bool 0%Q x then EmptyString else "-")
    +:+ pretty (t / 10) +:+ "." +:+ pretty (t mod 10).

End Py.

(** ** Templates of the parsed page (mwparserfromhell) *)

Record Param := mkParam {
  param_name : string;
  param_value : string;
  param_showkey : bool
}.

Record Template := mkTemplate {
  template_name : string;
  template_params : list Param
}.

Definition str_parameter (p : Param) : string :=
  if param_showkey p then param_name p +:+ "=" +:+ param_value p
  else param_value p.

(** [str(template)] *)
Definition str_template (t : Template) : string :=
  "{{" +:+ template_name t
       +:+ fold_right (fun p acc => "|" +:+ str_parameter p +:+ acc) EmptyString (template_params t)
       +:+ "}}".

(** [old == new] on two values that are a template or [None]: nodes compare
    as their text, and a template never equals [None]. *)
Definition template_eq (a b : option Template) : bool :=
  match a, b with
  | None, None => true
  | Some x, Some y => String.eqb (str_template x) (str_template y)
  | _, _ => false
  end.

(** [template.has(name)] *)
Definition template_has (t : Template) (name : string) : bool :=
  existsb (fun p => String.eqb (Py.strip (param_name p)) (Py.strip name))
          (template_params t).

(** [template.get(name)]: the last parameter of that name; [None] stands for
    [ValueError]. *)
Definition template_get (t : Template) (name : string) : option Param :=
  find (fun p => String.eqb (Py.strip (param_name p)) (Py.strip name))
       (rev (template_params t)).

(** [str(x)] for [x] a template or [None]. *)
Definition str_optional (t : option Template) : string :=
  match t with
  | Some x => str_template x
  | None => "None"
  end.

(** [re.match(r'^geograph(-|$)', s)]: after the literal, a hyphen, the end of
    the string, or the newline that ends the string. *)
Definition is_geograph_source (s : string) : bool :=
  match s with
  | String "g" (String "e" (String "o" (String "g" (String "r" (String "a"
      (String "p" (String "h" r))))))) =>
      match r with
      | EmptyString => true
      | String "-" _ => true
      | String c EmptyString => Ascii.eqb c "010"
      | _ => false
      end
  | _ => false
  end.

(** ** Exceptions *)

Inductive ExceptionClass :=
  | Exception
  | NotEligible
  | MinorProblem
  | BadTemplate
  | NotInGeographDatabase
  | UploadFailed
  | MajorProblem
  | BadGeographDatabase
  | TooManyTemplates
  | LookupError
  | IndexError
  | KeyError
  | ValueError
  | RuntimeError
  | RecursionError
  | sqlite3_Error
  | DatabaseError
  | OperationalError.

Definition ExceptionClass_eqb (a b : ExceptionClass) : bool :=
  match a, b with
  | Exception, Exception | NotEligible, NotEligible
  | MinorProblem, MinorProblem | BadTemplate, BadTemplate
  | NotInGeographDatabase, NotInGeographDatabase
  | UploadFailed, UploadFailed | MajorProblem, MajorProblem
  | BadGeographDatabase, BadGeographDatabase
  | TooManyTemplates, TooManyTemplates | LookupError, LookupError
  | IndexError, IndexError | KeyError, KeyError | ValueError, ValueError
  | RuntimeError, RuntimeError | RecursionError, RecursionError
  | sqlite3_Error, sqlite3_Error | DatabaseError, DatabaseError
  | OperationalError, OperationalError => true
  | _, _ => false
  end.

(** The class statements of the script, and the hierarchy above the builtin
    exceptions and the exceptions of [sqlite3] that it meets.
    [TooManyTemplates] comes from [gubutil]; the script only needs that it is
    none of its own classes. *)
Definition base_class (c : ExceptionClass) : option ExceptionClass :=
  match c with
  | Exception => None
  | NotEligible => Some Exception
  | MinorProblem => Some Exception
  | BadTemplate => Some MinorProblem
  | NotInGeographDatabase => Some MinorProblem
  | UploadFailed => Some MinorProblem
  | MajorProblem => Some Exception
  | BadGeographDatabase => Some MajorProblem
  | TooManyTemplates => Some Exception
  | LookupError => Some Exception
  | IndexError => Some LookupError
  | KeyError => Some LookupError
  | ValueError => Some Exception
  | RuntimeError => Some Exception
  | RecursionError => Some RuntimeError
  | sqlite3_Error => Some Exception
  | DatabaseError => Some sqlite3_Error
  | OperationalError => Some DatabaseError
  end.

Fixpoint issubclass_upto (n : nat) (c d : ExceptionClass) : bool :=
  ExceptionClass_eqb c d ||
  match n with
  | O => false
  | S n' =>
      match base_class c with
      | Some b => issubclass_upto n' b d
      | None => false
      end
  end.

(** No class is more than three steps below [Exception]. *)
Definition issubclass : ExceptionClass -> ExceptionClass -> bool :=
  issubclass_upto 3.

Record exn := mkExn {
  exn_class : ExceptionClass;
  exn_msg : string     (* [str(e)] *)
}.

Definition isinstance (e : exn) (c : ExceptionClass) : bool :=
  issubclass (exn_class e) c.

(** ** The page object, the log and the commits *)

Record Page := mkPage {
  pageid : Z;
  text : string;
  latest_revision_id : Z
}.

Inductive Level := VERBOSE | WARNING | ERROR.

Record Commit := mkCommit {
  commit_text : string;
  commit_summary : string;
  commit_minor : bool
}.

(** What a run of the bot can touch: the page object (which the wiki client
    refreshes behind the script's back during its requests), the bot's log,
    and the edits saved so far. *)
Record World := mkWorld {
  page : Page;
  journal : list (Level * string);
  saved : list Commit
}.

(** ** State and exceptions *)

Definition M (A : Type) : Type := World -> (exn + A) * World.

Definition ret {A} (x : A) : M A := fun w => (inr x, w).

Definition bind {A B} (m : M A) (f : A -> M B) : M B := fun w =>
  match m w with
  | (inr x, w') => f x w'
  | (inl e, w') => (inl e, w')
  end.

Notation "'do' x <- m ; k" := (bind m (fun x => k))
  (at level 10, x name, m at level 100, k at level 200).

Definition raise {A} (e : exn) : M A := fun w => (inl e, w).

(** [try: m except ...: h e] *)
Definition try_except {A} (m : M A) (h : exn -> M A) : M A := fun w =>
  match m w with
  | (inl e, w') => h e w'
  | r => r
  end.

Definition emit (l : Level) (msg : string) : M unit := fun w =>
  (inr tt, mkWorld (page w) (journal w ++ [(l, msg)]) (saved w)).

Definition get_page : M Page := fun w => (inr (page w), w).

Definition set_text (s : string) : M unit := fun w =>
  (inr tt,
   mkWorld (mkPage (pageid (page w)) s (latest_revision_id (page w)))
           (journal w) (saved w)).

(** A request of the wiki client: it answers, and may refresh the page
    object. *)
Definition request {A} (f : Page -> A * Page) : M A := fun w =>
  let '(a, p) := f (page w) in (inr a, mkWorld p (journal w) (saved w)).

(** A request that the wiki can also fail. *)
Definition submit {A} (f : Page -> (exn + A) * Page) : M A := fun w =>
  let '(r, p) := f (page w) in (r, mkWorld p (journal w) (saved w)).

(** A value or an exception coming back from a collaborator. *)
Definition lift {A} (r : exn + A) : M A :=
  match r with
  | inr x => ret x
  | inl e => raise e
  end.

(** [d[key]] *)
Definition getitem (d : gmap string string) (key : string) : M string :=
  match d !! key with
  | Some v => ret v
  | None => raise (mkExn KeyError ("'" +:+ key +:+ "'"))
  end.

(** ** Settings of the secondary geocoding service *)

(** Modelled from the spec: [location.MapItSettings], whose class is in the
    [location] module.  The script sets [allowed] before it lets the lookup
    use the third-party service and reads [used], the attribution-notice
    flag of the spec, when it writes the summary. *)
Record MapItSettings := mkMapIt {
  allowed : bool;
  used : bool
}.

(** An aware [datetime]: the wall-clock reading in seconds and the offset of
    its zone at that reading. *)
Record datetime := mkDatetime {
  wall : Z;
  utcoffset : Z
}.

(** [a < b] on aware datetimes of different zones compares instants. *)
Definition datetime_lt (a b : datetime) : bool :=
  Z.ltb (wall a - utcoffset a) (wall b - utcoffset b).

(** ** The collaborators of the script *)

Class Collaborators := {
  (** types *)
  Wikicode : Type;
  Row : Type;
  Statement : Type;
  Creditline : Type;
  (** [mwparserfromhell.parse], [str(tree)] *)
  parse : string -> Wikicode;
  str_tree : Wikicode -> string;
  (** [gubutil] *)
  get_gridimage_id : Wikicode -> exn + Z;
  (** the [SELECT] on [geodb]: the row of an image, [None] when there is
      none, or the exception of [sqlite3]; [row['upd_timestamp']] *)
  fetchone : Z -> exn + option Row;
  upd_timestamp : Row -> string;
  (** [location] *)
  MapItSettings_new : MapItSettings;
  get_location : Wikicode -> exn + Template;
  get_object_location : Wikicode -> exn + Template;
  set_location : Wikicode -> option Template -> Wikicode;
  set_object_location : Wikicode -> option Template -> Wikicode;
  location_from_row : Row -> MapItSettings -> option Template * MapItSettings;
  object_location_from_row :
    Row -> MapItSettings -> option Template * MapItSettings;
  location_params : option Template -> gmap string string;
  az_dist_between_locations :
    option Template -> option Template -> Py.float * Py.float * Py.float;
  format_row : Row -> string;
  format_direction : Py.float -> string;
  statement_matches_template : Statement -> Template -> bool;
  statement_id : Statement -> string;
  (** [creditline] *)
  creditline_from_row : Row -> Creditline;
  can_add_creditline : Wikicode -> Creditline -> bool;
  add_creditline : Wikicode -> Creditline -> Wikicode;
  (** the wiki: the answer to [wbgetentities] for a media id, or the
      exception of the request; the answer has an [entities] entry or not,
      which maps identifiers to entities, each with its [statements] entry if
      it has one.  The timestamp of the oldest revision, in seconds.
      [page.save]: the identifier of the new revision, or the exception of an
      edit that the wiki refuses *)
  wbgetentities :
    string -> Page ->
    (exn + option (gmap string (option (gmap string (list Statement)))))
    * Page;
  save_page : Page -> string -> bool -> exn + Z;
  oldest_revision_timestamp : Page -> Z * Page;
  (** [datetime.strptime(s, "%Y-%m-%d %H:%M:%S")] in seconds, [None] for
      [ValueError]; the offset of Europe/London at a wall-clock reading;
      [str] of a datetime *)
  strptime : string -> option Z;
  london_utcoffset : Z -> Z;
  str_datetime : datetime -> string
}.

(** ** Decisions of one attempt *)

Record Flags := mkFlags {
  location_added : bool;
  location_replaced : bool;
  location_removed : bool;
  object_location_added : bool;
  object_location_replaced : bool;
  object_location_removed : bool;
  creditline_added : bool
}.

(** [dict.get(key, '')] *)
Definition get_or_empty (d : gmap string string) (key : string) : string :=
  default EmptyString (d !! key).

(** [key in d] *)
Definition has_key {V} (d : gmap string V) (key : string) : bool :=
  match d !! key with
  | Some _ => true
  | None => false
  end.

Fixpoint for_each {A} (l : list A) (body : A -> M unit) : M unit :=
  match l with
  | [] => ret tt
  | x :: r => do _ <- body x; for_each r body
  end.

Section UpdateMetadataBot.

Context `{Collaborators}.

Definition log : string -> M unit := emit VERBOSE.
Definition warning : string -> M unit := emit WARNING.
Definition error : string -> M unit := emit ERROR.

(** The result of the location step of [process_page]. *)
Record Located := mkLocated {
  l_tree : Wikicode;
  l_mapit : MapItSettings;
  l_new_location : option Template;
  l_new_object_location : option Template;
  l_flags : Flags
}.

(** The local variables of [process_page] when it compares the texts. *)
Record Decided := mkDecided {
  d_revid : Z;
  d_row : Row;
  d_old_location : option Template;
  d_old_object_location : option Template;
  d_new_location : option Template;
  d_new_object_location : option Template;
  d_tree : Wikicode;
  d_mapit : MapItSettings;
  d_flags : Flags;
  d_minor : bool
}.

Definition unmodified_on_geograph_since_upload (row : Row) : M bool :=
  do commons_ts <- request oldest_revision_timestamp;
  let commons_dt := mkDatetime commons_ts 0 in
  let geograph_date := upd_timestamp row in
  do geograph_ts <-
    (match strptime geograph_date with
     | Some t => ret t
     | None =>
         raise (mkExn ValueError
                  ("time data '" +:+ geograph_date
                     +:+ "' does not match format '%Y-%m-%d %H:%M:%S'"))
     end : M Z);
  let geograph_dt := mkDatetime geograph_ts (london_utcoffset geograph_ts) in
  do _ <- log ("Commons timestamp: " +:+ str_datetime commons_dt
         +:+ "; Geograph timestamp: " +:+ str_datetime geograph_dt);
  ret (datetime_lt geograph_dt commons_dt).

(** [int(str(template.get('prec').value))] *)
Definition int_prec (t : Template) : M Z :=
  match template_get t "prec" with
  | None => raise (mkExn ValueError "prec")
  | Some p =>
      match Py.int (param_value p) with
      | Some n => ret n
      | None =>
          raise (mkExn ValueError
                   ("invalid literal for int() with base 10: '"
                      +:+ param_value p +:+ "'"))
      end
  end.

Definition should_set_location
    (old_template new_template : option Template) (desc : string) : M bool :=
  let oldparam := location_params old_template in
  let newparam := location_params new_template in
  (* We generally want to synchronise with Geograph. *)
  let should_set := true in
  (* but not if there's no change (e.g. both are None) *)
  let should_set :=
    if template_eq old_template new_template then false else should_set in
  (* but not yet if old template has no gridref *)
  do should_set <-
    (match old_template, new_template with
    | Some old, Some new =>
        do source <- getitem oldparam "source";
        if negb (Py.contains "-" source) then
          if template_has old "4" then
            do _ <- log (Py.capitalize desc
                   +:+ " template is DMS with no gridref: not updating");
            ret false
          else
            let '(azon, azno, dist) :=
              az_dist_between_locations old_template new_template in
            do prec <- int_prec new;
            if Py.lt_int dist prec then
              do _ <- log (Py.capitalize desc +:+ " has only moved by "
                     +:+ Py.format_d dist +:+ " m: not updating");
              ret false
            else ret should_set
        else ret should_set
    | _, _ => ret should_set
    end : M bool);
  (* and not if gridref hasn't changed *)
  match old_template, new_template with
  | Some _, Some _ =>
      do old_source <- getitem oldparam "source";
      do new_source <- getitem newparam "source";
      if String.eqb old_source new_source then
        do _ <- log (Py.capitalize desc +:+ " gridref unchanged: not updating");
        ret false
      else ret should_set
  | _, _ => ret should_set
  end.

Definition describe_move (old_template new_template : option Template)
    : string :=
  let '(azon, azno, distance) :=
    az_dist_between_locations old_template new_template in
  "moved " +:+ Py.format_1f distance +:+ " m " +:+ format_direction azon.

Definition get_sdc_statements : M (gmap string (list Statement)) :=
  do p <- get_page;
  let mediaid := "M" +:+ pretty (pageid p) in
  do data <- submit (wbgetentities mediaid);
  do entities <-
    match data with
    | Some entities => ret entities
    | None => raise (mkExn KeyError "'entities'")
    end;
  do entity <-
    match entities !! mediaid with
    | Some entity => ret entity
    | None => raise (mkExn KeyError ("'" +:+ mediaid +:+ "'"))
    end;
  ret (default ∅ entity).

Definition has_sdc_geocoding : M bool :=
  do statements <- get_sdc_statements;
  ret (has_key statements "P625" || has_key statements "P1259").

Definition no_flags : Flags :=
  mkFlags false false false false false false false.

(** One slot written in the update branch: the tree after the write, the
    settings, and the added, replaced and removed flags of the slot. *)
Definition write_slot
    (set : Wikicode -> option Template -> Wikicode)
    (from_row : Row -> MapItSettings -> option Template * MapItSettings)
    (should_set : bool) (row : Row) (old new : option Template)
    (tree : Wikicode) (mapit : MapItSettings)
    : Wikicode * MapItSettings * (bool * bool * bool) :=
  if should_set then
    let '(l, mapit) := from_row row mapit in
    let tree := set tree l in
    match old, new with
    | None, Some _ => (tree, mapit, (true, false, false))
    | None, None => (tree, mapit, (false, false, false))
    | Some _, None => (tree, mapit, (false, false, true))
    | Some _, Some _ => (tree, mapit, (false, true, false))
    end
  else (tree, mapit, (false, false, false)).

(** The location step of [process_page]: from the test on the two old
    locations to the end of its [else] branch. *)
Definition update_locations
    (row : Row) (tree : Wikicode) (mapit : MapItSettings)
    (old_location old_object_location : option Template) : M Located :=
  if template_eq old_location None && template_eq old_object_location None
  then
    let mapit := mkMapIt true (used mapit) in
    (* No geocoding at all: add from Geograph *)
    let '(new_location, mapit) := location_from_row row mapit in
    let '(new_object_location, mapit) := object_location_from_row row mapit in
    do add_camera <-
      (match new_location with
       | Some t =>
           match template_get t "prec" with
           | Some p => ret (negb (String.eqb (param_value p) "1000"))
           | None => raise (mkExn ValueError "prec")
           end
       | None => ret false
       end : M bool);
    let tree := if (add_camera : bool) then set_location tree new_location else tree in
    let tree := set_object_location tree new_object_location in
    ret (mkLocated tree mapit new_location new_object_location
            (mkFlags add_camera false false true false false false))
  else
    let oldcamparam := location_params old_location in
    let oldobjparam := location_params old_object_location in
    if (template_eq old_location None
        || is_geograph_source (get_or_empty oldcamparam "source"))
       && (template_eq old_object_location None
           || is_geograph_source (get_or_empty oldobjparam "source"))
    then
      do _ <- log "Old geocoding is from Geograph";
      (* Existing geocoding all from Geograph, so updating from Geograph
         OK if needed. *)
      let '(new_location, mapit) := location_from_row row mapit in
      let '(new_object_location, mapit) :=
        object_location_from_row row mapit in
      (* Should we update locations? *)
      do should_set_cam <- should_set_location old_location new_location "camera";
      do should_set_obj <-
        should_set_location old_object_location new_object_location "object";
      (* Check if SDC has location templates. *)
      do statements <- get_sdc_statements;
      do _ <- for_each (default [] (statements !! "P1259")) (fun s =>
        match old_location with
        | Some t =>
            if statement_matches_template s t
            then log ("Might want to update " +:+ statement_id s)
            else ret tt
        | None => ret tt
        end);
      do _ <- for_each (default [] (statements !! "P625")) (fun s =>
        match old_object_location with
        | Some t =>
            if statement_matches_template s t
            then log ("Might want to update " +:+ statement_id s)
            else ret tt
        | None => ret tt
        end);
      (* But not if there's an SDC location. *)
      do suppress <-
        (if should_set_cam || should_set_obj then has_sdc_geocoding
         else ret false : M bool);
      do _ <- (if suppress then log "Page has SDC geocoding: not updating (yet)"
       else ret tt);
      let should_set_cam := if suppress then false else should_set_cam in
      let should_set_obj := if suppress then false else should_set_obj in
      (* Do it if necessary: *)
      let mapit := mkMapIt true (used mapit) in
      let '(tree, mapit, (added, replaced, removed)) :=
        write_slot set_location location_from_row should_set_cam row
                   old_location new_location tree mapit in
      let '(tree, mapit, (oadded, oreplaced, oremoved)) :=
        write_slot set_object_location object_location_from_row
                   should_set_obj row old_object_location
                   new_object_location tree mapit in
      ret (mkLocated tree mapit new_location new_object_location
              (mkFlags added replaced removed oadded oreplaced oremoved
                       false))
    else
      (* the candidates are not computed on this path, and nothing reads
         them *)
      ret (mkLocated tree mapit None None no_flags).

(** The credit-line step of [process_page]. *)
Definition update_creditline (row : Row) (tree : Wikicode)
    : M (Wikicode * bool) :=
  let creditline := creditline_from_row row in
  do ok <-
    (if can_add_creditline tree creditline
     then unmodified_on_geograph_since_upload row
     else ret false : M bool);
  if ok then ret (add_creditline tree creditline, true)
  else do _ <- log "Cannot add credit line"; ret (tree, false).

(** The summary as [process_page] has it before the credit-line clause. *)
Definition location_summary (f : Flags) (row : Row)
    (old_location new_location : option Template)
    (old_object_location new_object_location : option Template) : string :=
  if location_added f then
    if object_location_added f then
      "Add camera and object locations from Geograph ("
        +:+ format_row row +:+ ")"
    else if object_location_replaced f then
      "Add camera location and update object location ("
        +:+ describe_move old_object_location new_object_location
        +:+ "), both from Geograph (" +:+ format_row row +:+ ")"
    else if object_location_removed f then
      "Add camera location from Geograph (" +:+ format_row row
        +:+ ") and remove Geograph-derived 1km-precision object location"
    else
      "Add camera location from Geograph (" +:+ format_row row +:+ ")"
  else if location_replaced f then
    if object_location_added f then
      "Update camera location (" +:+ describe_move old_location new_location
        +:+ ") and add object location, both from Geograph ("
        +:+ format_row row +:+ ")"
    else if object_location_replaced f then
      "Update camera and object locations ("
        +:+ describe_move old_location new_location +:+ " and "
        +:+ describe_move old_object_location new_object_location
        +:+ ", respectively) from Geograph (" +:+ format_row row +:+ ")"
    else if object_location_removed f then
      "Update camera location (" +:+ describe_move old_location new_location
        +:+ ") from Geograph (" +:+ format_row row
        +:+ ") and remove Geograph-derived 1km-precision object location"
    else
      "Update camera location (" +:+ describe_move old_location new_location
        +:+ ") from Geograph (" +:+ format_row row +:+ ")"
  else if location_removed f then
    if object_location_added f then
      "Remove Geograph-derived camera location "
        +:+ "(no longer on Geograph, or 1km precision) "
        +:+ "and add object location from Geograph ("
        +:+ format_row row +:+ ")"
    else if object_location_replaced f then
      "Remove Geograph-derived camera location "
        +:+ "(no longer on Geograph, or 1km precision) "
        +:+ "and update object location ("
        +:+ describe_move old_object_location new_object_location
        +:+ ") from Geograph (" +:+ format_row row +:+ ")"
    else
      "Remove Geograph-derived camera location "
        +:+ "(no longer on Geograph, or 1km precision)"
  else if object_location_added f then
    "Add object location from Geograph (" +:+ format_row row +:+ ")"
  else if object_location_replaced f then
    "Update object location ("
      +:+ describe_move old_object_location new_object_location
      +:+ ") from Geograph (" +:+ format_row row +:+ ")"
  else if object_location_removed f then
    "Remove Geograph-derived 1km-precision object location"
  else EmptyString.

(** [if creditline_added: ...] *)
Definition creditline_clause (f : Flags) (summary : string) : string :=
  if creditline_added f then
    if String.eqb summary EmptyString then "Add credit line with title from Geograph"
    else summary +:+ "; add credit line with title from Geograph"
  else summary.

(** [if mapit.used: ...] *)
Definition mapit_clause (mapit : MapItSettings) (summary : string) : string :=
  if used mapit then
    summary +:+ " [powered by MapIt: http://global.mapit.mysociety.org]"
  else summary.

(** The edit summary of [process_page]. *)
Definition edit_summary (d : Decided) : string :=
  let summary :=
    location_summary (d_flags d) (d_row d)
      (d_old_location d) (d_new_location d)
      (d_old_object_location d) (d_new_object_location d) in
  let summary := creditline_clause (d_flags d) summary in
  mapit_clause (d_mapit d) summary.

Definition with_creditline (f : Flags) (b : bool) : Flags :=
  mkFlags (location_added f) (location_replaced f) (location_removed f)
          (object_location_added f) (object_location_replaced f)
          (object_location_removed f) b.

(** [process_page] from its first line to [newtext = str(tree)]. *)
Definition snapshot_and_decide : M Decided :=
  do p <- get_page;
  let revid := latest_revision_id p in
  do p <- get_page;
  let tree := parse (text p) in
  do gridimage_id <-
    try_except (lift (get_gridimage_id tree)) (fun e =>
      if isinstance e ValueError then raise (mkExn BadTemplate (exn_msg e))
      else if isinstance e IndexError
      then raise (mkExn BadTemplate (exn_msg e))
      else raise e);
  let mapit := MapItSettings_new in
  do found <- lift (fetchone gridimage_id);
  do row <-
    match found with
    | Some row => ret row
    | None =>
        raise (mkExn NotInGeographDatabase
                 ("Geograph ID " +:+ pretty gridimage_id
                    +:+ " not in database"))
    end;
  do old_location <-
    try_except (do t <- lift (get_location tree); ret (Some t)) (fun e =>
      if isinstance e IndexError then ret None else raise e);
  do old_object_location <-
    try_except (do t <- lift (get_object_location tree); ret (Some t))
      (fun e => if isinstance e IndexError then ret None else raise e);
  do _ <- log ("Old cam: " +:+ str_optional old_location);
  do _ <- log ("Old obj: " +:+ str_optional old_object_location);
  do l <- update_locations row tree mapit old_location old_object_location;
  do c <- update_creditline row (l_tree l);
  let '(tree, added) := c in
  ret (mkDecided revid row old_location old_object_location
         (l_new_location l) (l_new_object_location l) tree (l_mapit l)
         (with_creditline (l_flags l) added) false).

(** [page.save(summary, minor=minor)]: the wiki takes the text of the page
    object as a new revision, which the page object then is at, or refuses
    the edit, and [save] raises. *)
Definition save (summary : string) (minor : bool) : M unit := fun w =>
  match save_page (page w) summary minor with
  | inr newrevid =>
      (inr tt,
       mkWorld (mkPage (pageid (page w)) (text (page w)) newrevid)
               (journal w)
               (saved w ++ [mkCommit (text (page w)) summary minor]))
  | inl e => (inl e, w)
  end.

(** [depth] bounds the nesting of [process_page] inside itself, as the
    interpreter's recursion limit does. *)
Fixpoint process_page (depth : nat) : M unit :=
  match depth with
  | O => raise (mkExn RecursionError "maximum recursion depth exceeded")
  | S depth' =>
      do d <- snapshot_and_decide;
      let newtext := str_tree (d_tree d) in
      do p <- get_page;
      if negb (String.eqb newtext (text p)) then
        let summary := edit_summary d in
        do _ <- log ("edit summary: " +:+ summary);
        (* Before we save, make sure pywikibot's view of the latest
           revision hasn't changed. *)
        do p <- get_page;
        if negb (Z.eqb (latest_revision_id p) (d_revid d)) then
          do _ <- log ("page has changed ("
                         +:+ pretty (latest_revision_id p) +:+ " != "
                         +:+ pretty (d_revid d) +:+ "): restarting edit");
          process_page depth'
        else
          do _ <- set_text newtext;
          save summary (d_minor d)
      else ret tt
  end.

Definition treat_page (depth : nat) : M unit :=
  try_except (process_page depth) (fun e =>
    if isinstance e NotEligible then log (exn_msg e)
    else if isinstance e MinorProblem then warning (exn_msg e)
    else if isinstance e MajorProblem then error (exn_msg e)
    else if isinstance e TooManyTemplates then error (exn_msg e)
    else raise e).

End UpdateMetadataBot.

(** ** A small wiki to run the bot on

    An instance of the collaborators: pages are lists of text and template
    nodes, the database holds two rows, and the parser knows the pages of this
    wiki.  [overlay] is the [statements] entry of the entity that
    [wbgetentities] answers, [refresh] is what the request for the oldest
    revision does to the page object, and [failure] makes the query on the
    database raise.  The wiki takes every edit and numbers the revisions in
    steps of one. *)

Module Demo.

Inductive Node :=
  | Text (s : string)
  | Tmpl (t : Template).

Definition str_node (n : Node) : string :=
  match n with
  | Text s => s
  | Tmpl t => str_template t
  end.

Definition render (tree : list Node) : string :=
  fold_right (fun n acc => str_node n +:+ acc) EmptyString tree.

Record Image := mkImage {
  gridimage_id : Z;
  camera : option Template;
  subject : option Template;
  updated : string;
  credit : string
}.

Definition geograph (id : string) : Template :=
  mkTemplate "Geograph" [mkParam "1" id false].

Definition location (name lat lon source prec : string) : Template :=
  mkTemplate name
    [mkParam "1" lat false; mkParam "2" lon false;
     mkParam "3" ("source:" +:+ source) false; mkParam "prec" prec true].

Definition camera_1km : Template :=
  location "Location" "51.50" "-0.12" "geograph" "1000".
Definition camera_gridref : Template :=
  location "Location" "51.50" "-0.12" "geograph-osgb36(TQ3080)" "1000".
Definition camera_new : Template :=
  location "Location" "51.5018" "-0.1203" "geograph-osgb36(TQ30168034)" "100".
Definition camera_moved : Template :=
  location "Location" "51.5018" "-0.12" "geograph-osgb36(TQ3081)" "1000".
Definition camera_foreign : Template :=
  location "Location" "51.50" "-0.12" "flickr" "100".
Definition subject_new : Template :=
  location "Object location" "51.5031" "-0.1195"
           "geograph-osgb36(TQ30218048)" "10".

Definition row123 : Image :=
  mkImage 123 (Some camera_new) (Some subject_new)
        "2009-06-01 12:00:00" "{{Credit line|Author=A. Walker}}".

(** A row with no coordinates, updated after the page was created. *)
Definition row124 : Image :=
  mkImage 124 None None "2011-03-01 09:30:00" "{{Credit line|Author=B. Hill}}".

Definition page123 : list Node := [Tmpl (geograph "123")].
Definition page123_located : list Node :=
  [Tmpl (geograph "123"); Tmpl camera_gridref].
Definition page124 : list Node := [Tmpl (geograph "124")].

Definition parse_page (s : string) : list Node :=
  match find (fun t => String.eqb (render t) s)
             [page123; page123_located; page124] with
  | Some t => t
  | None => [Text s]
  end.

Definition named (name : string) (n : Node) : bool :=
  match n with
  | Tmpl t => String.eqb (template_name t) name
  | Text _ => false
  end.

Definition get (name : string) (tree : list Node) : exn + Template :=
  match find (named name) tree with
  | Some (Tmpl t) => inr t
  | _ => inl (mkExn IndexError "list index out of range")
  end.

Definition set (name : string) (tree : list Node) (l : option Template)
    : list Node :=
  filter (fun n => negb (named name n)) tree
    ++ match l with
       | Some t => [Tmpl t]
       | None => []
       end.

Definition get_id (tree : list Node) : exn + Z :=
  match get "Geograph" tree with
  | inl e => inl e
  | inr t =>
      match template_get t "1" with
      | None => inl (mkExn IndexError "list index out of range")
      | Some p =>
          match Py.int (param_value p) with
          | Some n => inr n
          | None => inl (mkExn ValueError "invalid literal for int()")
          end
      end
  end.

Definition fetch (failure : option exn) (id : Z) : exn + option Image :=
  match failure with
  | Some e => inl e
  | None => inr (find (fun r => Z.eqb (gridimage_id r) id) [row123; row124])
  end.

Fixpoint after_prefix (p s : string) : option string :=
  match p, s with
  | EmptyString, _ => Some s
  | String a p', String b s' =>
      if Ascii.eqb a b then after_prefix p' s' else None
  | String _ _, EmptyString => None
  end.

Definition params (t : option Template) : gmap string string :=
  match t with
  | Some x =>
      match template_get x "3" with
      | Some p =>
          match after_prefix "source:" (param_value p) with
          | Some source => {[ "source" := source ]}
          | None => ∅
          end
      | None => ∅
      end
  | None => ∅
  end.

(** Two different locations of this wiki are 200 m apart, due south. *)
Definition az_dist (a b : option Template) : Py.float * Py.float * Py.float :=
  if template_eq a b then (0%Q, 0%Q, 0%Q)
  else (inject_Z 180, 0%Q, inject_Z 200).

Definition timestamp (s : string) : option Z :=
  if String.eqb s "2009-06-01 12:00:00" then Some 1243857600
  else if String.eqb s "2011-03-01 09:30:00" then Some 1298971800
  else None.

(** British Summer Time in the first row, Greenwich Mean Time in the
    second. *)
Definition london (t : Z) : Z :=
  if Z.eqb t 1243857600 then 3600 else 0.

Definition has_text (s : string) (n : Node) : bool :=
  match n with
  | Text x => String.eqb x s
  | Tmpl _ => false
  end.

(** Every page of this wiki was created on 2010-01-01 at 00:00:00. *)
Definition created : Z := 1262304000.

Definition collaborators
    (overlay : option (gmap string (list string)))
    (refresh : Page -> Page) (failure : option exn) : Collaborators :=
  {| Wikicode := list Node;
     Row := Image;
     Statement := string;
     Creditline := string;
     parse := parse_page;
     str_tree := render;
     get_gridimage_id := get_id;
     fetchone := fetch failure;
     upd_timestamp := updated;
     MapItSettings_new := mkMapIt false false;
     get_location := get "Location";
     get_object_location := get "Object location";
     set_location := set "Location";
     set_object_location := set "Object location";
     location_from_row := fun r m => (camera r, m);
     object_location_from_row := fun r m => (subject r, m);
     location_params := params;
     az_dist_between_locations := az_dist;
     format_row := fun r => "geograph.org.uk/photo/" +:+ pretty (gridimage_id r);
     format_direction := fun _ => "S";
     statement_matches_template := fun _ _ => false;
     statement_id := fun s => s;
     creditline_from_row := credit;
     can_add_creditline := fun tree c => negb (existsb (has_text c) tree);
     add_creditline := fun tree c => (tree ++ [Text c])%list;
     wbgetentities := fun mediaid p => (inr (Some {[ mediaid := overlay ]}), p);
     save_page := fun p _ _ => inr (latest_revision_id p + 1);
     oldest_revision_timestamp := fun p => (created, refresh p);
     strptime := timestamp;
     london_utcoffset := london;
     str_datetime := fun d => pretty (wall d - utcoffset d) |}.

Definition no_refresh (p : Page) : Page := p.

(** The wiki client learns of revision 11 when it was at revision 10. *)
Definition refresh_once (p : Page) : Page :=
  if Z.eqb (latest_revision_id p) 10
  then mkPage (pageid p) (text p) 11
  else p.

Definition geocoded_overlay : option (gmap string (list string)) :=
  Some {[ "P625" := ["M1$6D2F"] ]}.

Definition world (tree : list Node) : World :=
  mkWorld (mkPage 1 (render tree) 10) [] [].


(** The wiki with no overlay; with a coordinate statement in the overlay;
    with a page that changes under the bot; with a database whose file is
    corrupt. *)
Definition plain : Collaborators := collaborators None no_refresh None.
Definition geocoded : Collaborators :=
  collaborators geocoded_overlay no_refresh None.
Definition drifting : Collaborators := collaborators None refresh_once None.

(** What the bot decides on page 124, and the world it leaves. *)
Definition decided124 : @Decided plain :=
  @mkDecided plain 10 row124 None None None None page124
             (mkMapIt true false)
             (mkFlags false false false true false false false) false.

Definition after124 : World :=
  mkWorld (mkPage 1 (render page124) 10)
    [(VERBOSE, "Old cam: None"); (VERBOSE, "Old obj: None");
     (VERBOSE, "Commons timestamp: 1262304000; Geograph timestamp: 1298971800");
     (VERBOSE, "Cannot add credit line")]
    [].

(** What the bot decides on page 123 while the page moves to revision 11. *)
Definition decided123 : @Decided drifting :=
  @mkDecided drifting 10 row123 None None (Some camera_new) (Some subject_new)
             (page123 ++ [Tmpl camera_new; Tmpl subject_new; Text (credit row123)])%list
             (mkMapIt true false)
             (mkFlags true false false true false false true) false.

Definition after123 : World :=
  mkWorld (mkPage 1 (render page123) 11)
    [(VERBOSE, "Old cam: None"); (VERBOSE, "Old obj: None");
     (VERBOSE, "Commons timestamp: 1262304000; Geograph timestamp: 1243854000")]
    [].

(** The world and the result of the location step on a located page of
    the wiki whose overlay holds a coordinate statement. *)
Definition suppressed : World :=
  mkWorld (mkPage 1 (render page123_located) 10)
    [(VERBOSE, "Old geocoding is from Geograph");
     (VERBOSE, "Page has SDC geocoding: not updating (yet)")]
    [].

Definition located_unchanged : @Located geocoded :=
  @mkLocated geocoded page123_located (mkMapIt true false)
    (Some camera_new) (Some subject_new) no_flags.

(** An attempt that only adds the credit line. *)
Definition credit_only : @Decided plain :=
  @mkDecided plain 10 row123 None None None None
    (page123 ++ [Text (credit row123)])%list (mkMapIt false false)
    (mkFlags false false false false false false true) false.

End Demo.

(** ** Predicates of the statements *)

(** [template.get('prec').value == v] for a template that has the
    parameter. *)
Definition prec_is (t : Template) (v : string) : bool :=
  match template_get t "prec" with
  | Some p => String.eqb (param_value p) v
  | None => false
  end.

(** [int(str(template.get('prec').value))] when it is defined. *)
Definition prec_of (t : Template) : option Z :=
  match template_get t "prec" with
  | Some p => Py.int (param_value p)
  | None => None
  end.

(** An old location of a slot whose source is not Geograph's. *)
Definition foreign `{Collaborators} (old : option Template) : Prop :=
  exists t, old = Some t /\
    is_geograph_source (get_or_empty (location_params (Some t)) "source") = false.

(** The overlay answers every request with an entity that holds a coordinate
    statement. *)
Definition overlay_has_geocoding `{Collaborators} : Prop :=
  forall mediaid p,
    exists entities statements,
      fst (wbgetentities mediaid p) = inr (Some entities)
      /\ entities !! mediaid = Some (Some statements)
      /\ has_key statements "P625" || has_key statements "P1259" = true.

(** The exceptions that [treat_page] has a clause for. *)
Definition handled (e : exn) : bool :=
  isinstance e NotEligible || isinstance e MinorProblem
  || isinstance e MajorProblem || isinstance e TooManyTemplates.

(** A computation that saves nothing. *)
Definition keeps_saved {A} (m : M A) : Prop :=
  forall w, saved (snd (m w)) = saved w.

(** ** Further predicates and pages *)

(** A computation that only writes to the log. *)
Definition only_logs {A} (m : M A) : Prop :=
  forall w,
    page (snd (m w)) = page w /\ saved (snd (m w)) = saved w
    /\ exists entries, journal (snd (m w)) = (journal w ++ entries)%list.

(** The exception that ends a [process_page] nested too deep. *)
Definition recursion_limit : exn :=
  mkExn RecursionError "maximum recursion depth exceeded".

(** What the three flags of a slot say about its old and its new value. *)
Definition slot_flags_agree (added replaced removed : bool)
    (old new : option Template) : Prop :=
  (added = true ->
   old = None /\ is_Some new /\ replaced = false /\ removed = false)
  /\ (replaced = true -> is_Some old /\ is_Some new /\ removed = false)
  /\ (removed = true -> is_Some old /\ new = None).

(** A computation whose exceptions all satisfy [P]. *)
Definition raises_only (P : exn -> Prop) {A} (m : M A) : Prop :=
  forall w e w', m w = (inl e, w') -> P e.

(** An exception that is no [MajorProblem]. *)
Definition no_major_problem (e : exn) : Prop := isinstance e MajorProblem = false.

(** No collaborator raises a [MajorProblem]. *)
Definition outside_raises_no_major_problem `{Collaborators} : Prop :=
  (forall tree e, get_gridimage_id tree = inl e -> no_major_problem e)
  /\ (forall id e, fetchone id = inl e -> no_major_problem e)
  /\ (forall tree e, get_location tree = inl e -> no_major_problem e)
  /\ (forall tree e, get_object_location tree = inl e -> no_major_problem e)
  /\ (forall mediaid p e,
        fst (wbgetentities mediaid p) = inl e -> no_major_problem e)
  /\ (forall p summary minor e,
        save_page p summary minor = inl e -> no_major_problem e).

(** More pages, rows and wikis for the small wiki. *)
Module More.

(** The collaborators [C] with another parser and another reader of the
    camera location. *)
Definition with_readers (C : Collaborators)
    (parser : string -> @Wikicode C)
    (reader : @Wikicode C -> exn + Template) : Collaborators :=
  {| Wikicode := @Wikicode C;
     Row := @Row C;
     Statement := @Statement C;
     Creditline := @Creditline C;
     parse := parser;
     str_tree := @str_tree C;
     get_gridimage_id := @get_gridimage_id C;
     fetchone := @fetchone C;
     upd_timestamp := @upd_timestamp C;
     MapItSettings_new := @MapItSettings_new C;
     get_location := reader;
     get_object_location := @get_object_location C;
     set_location := @set_location C;
     set_object_location := @set_object_location C;
     location_from_row := @location_from_row C;
     object_location_from_row := @object_location_from_row C;
     location_params := @location_params C;
     az_dist_between_locations := @az_dist_between_locations C;
     format_row := @format_row C;
     format_direction := @format_direction C;
     statement_matches_template := @statement_matches_template C;
     statement_id := @statement_id C;
     creditline_from_row := @creditline_from_row C;
     can_add_creditline := @can_add_creditline C;
     add_creditline := @add_creditline C;
     wbgetentities := @wbgetentities C;
     save_page := @save_page C;
     oldest_revision_timestamp := @oldest_revision_timestamp C;
     strptime := @strptime C;
     london_utcoffset := @london_utcoffset C;
     str_datetime := @str_datetime C |}.

(** The camera of [Demo.camera_gridref] a little to the north, in the same
    grid square. *)
Definition camera_refined : Template :=
  Demo.location "Location" "51.5001" "-0.12" "geograph-osgb36(TQ3080)" "1000".

(** A camera location with a fourth positional parameter and no grid
    reference. *)
Definition camera_four : Template :=
  mkTemplate "Location"
    [mkParam "1" "51.50" false; mkParam "2" "-0.12" false;
     mkParam "3" "source:geograph" false; mkParam "4" "N" false].

(** A row whose update timestamp is not a timestamp. *)
Definition row125 : Demo.Image :=
  Demo.mkImage 125 None None "last Tuesday" "{{Credit line|Author=C. Dale}}".

(** A page of an image that the database does not hold. *)
Definition page999 : list Demo.Node := [Demo.Tmpl (Demo.geograph "999")].

Definition parse999 (s : string) : list Demo.Node :=
  if String.eqb s (Demo.render page999) then page999 else Demo.parse_page s.

Definition unknown_image : Collaborators :=
  with_readers Demo.plain parse999 (@get_location Demo.plain).

Definition two_cameras : exn :=
  mkExn TooManyTemplates "2 Location templates".

Definition crowded : Collaborators :=
  with_readers Demo.plain (@parse Demo.plain) (fun _ => inl two_cameras).

(** The collaborators [C] on a wiki that saves as [saver] says. *)
Definition with_save (C : Collaborators)
    (saver : Page -> string -> bool -> exn + Z) : Collaborators :=
  {| Wikicode := @Wikicode C;
     Row := @Row C;
     Statement := @Statement C;
     Creditline := @Creditline C;
     parse := @parse C;
     str_tree := @str_tree C;
     get_gridimage_id := @get_gridimage_id C;
     fetchone := @fetchone C;
     upd_timestamp := @upd_timestamp C;
     MapItSettings_new := @MapItSettings_new C;
     get_location := @get_location C;
     get_object_location := @get_object_location C;
     set_location := @set_location C;
     set_object_location := @set_object_location C;
     location_from_row := @location_from_row C;
     object_location_from_row := @object_location_from_row C;
     location_params := @location_params C;
     az_dist_between_locations := @az_dist_between_locations C;
     format_row := @format_row C;
     format_direction := @format_direction C;
     statement_matches_template := @statement_matches_template C;
     statement_id := @statement_id C;
     creditline_from_row := @creditline_from_row C;
     can_add_creditline := @can_add_creditline C;
     add_creditline := @add_creditline C;
     wbgetentities := @wbgetentities C;
     save_page := saver;
     oldest_revision_timestamp := @oldest_revision_timestamp C;
     strptime := @strptime C;
     london_utcoffset := @london_utcoffset C;
     str_datetime := @str_datetime C |}.

(** A wiki whose pages are protected: it refuses every edit with an
    exception of the wiki client, which is none of the script's. *)
Definition locked : exn := mkExn Exception "Page is locked.".

Definition protected : Collaborators :=
  with_save Demo.plain (fun _ _ _ => inl locked).

(** Page 123 with its credit line. *)
Definition page123_credited : list Demo.Node :=
  (Demo.page123 ++ [Demo.Text (Demo.credit Demo.row123)])%list.

(** The location step on the located page 123 of the wiki with no overlay. *)
Definition updated : @Located Demo.plain :=
  @mkLocated Demo.plain
    [Demo.Tmpl (Demo.geograph "123"); Demo.Tmpl Demo.camera_new;
     Demo.Tmpl Demo.subject_new]
    (mkMapIt true false) (Some Demo.camera_new) (Some Demo.subject_new)
    (mkFlags false true false true false false false).

Definition after_update : World :=
  mkWorld (mkPage 1 (Demo.render Demo.page123_located) 10)
    [(VERBOSE, "Old geocoding is from Geograph")] [].

(** The location step on page 123 with no geocoding. *)
Definition added : @Located Demo.plain :=
  @mkLocated Demo.plain
    (Demo.page123 ++ [Demo.Tmpl Demo.camera_new; Demo.Tmpl Demo.subject_new])%list
    (mkMapIt true false) (Some Demo.camera_new) (Some Demo.subject_new)
    (mkFlags true false false true false false false).

(** What the bot decides on page 123 of the wiki with no overlay, the world
    it leaves, and the world after the commit, which makes revision 11. *)
Definition decided : @Decided Demo.plain :=
  @mkDecided Demo.plain 10 Demo.row123 None None
    (Some Demo.camera_new) (Some Demo.subject_new)
    (Demo.page123
       ++ [Demo.Tmpl Demo.camera_new; Demo.Tmpl Demo.subject_new;
           Demo.Text (Demo.credit Demo.row123)])%list
    (mkMapIt true false)
    (mkFlags true false false true false false true) false.

Definition after_decision : World :=
  mkWorld (mkPage 1 (Demo.render Demo.page123) 10)
    [(VERBOSE, "Old cam: None"); (VERBOSE, "Old obj: None");
     (VERBOSE, "Commons timestamp: 1262304000; Geograph timestamp: 1243854000")]
    [].

Definition committed : World :=
  mkWorld
    (mkPage 1 (@str_tree Demo.plain (d_tree decided)) 11)
    (journal after_decision
       ++ [(VERBOSE, "edit summary: " +:+ @edit_summary Demo.plain decided)])%list
    [mkCommit (@str_tree Demo.plain (d_tree decided))
              (@edit_summary Demo.plain decided) false].

(** An attempt that decided nothing. *)
Definition undecided : @Decided Demo.plain :=
  @mkDecided Demo.plain 10 Demo.row124 None None None None Demo.page124
    (mkMapIt false false) no_flags false.

End More.

(** ** Reasoning about [M] *)

Lemma bind_inr {A B} (m : M A) (f : A -> M B) w b w' :
  bind m f w = (inr b, w') ->
  exists a w1, m w = (inr a, w1) /\ f a w1 = (inr b, w').
Proof.
  unfold bind. destruct (m w) as [[e|a] w1]; intros E.
  - discriminate.
  - eauto.
Qed.

Lemma bind_ok {A B} (m : M A) (f : A -> M B) w a w1 :
  m w = (inr a, w1) -> bind m f w = f a w1.
Proof. unfold bind. intros ->. reflexivity. Qed.

Lemma bind_err {A B} (m : M A) (f : A -> M B) w e w1 :
  m w = (inl e, w1) -> bind m f w = (inl e, w1).
Proof. unfold bind. intros ->. reflexivity. Qed.

Lemma keeps_saved_ret {A} (x : A) : keeps_saved (ret x).
Proof. intros w. reflexivity. Qed.

Lemma keeps_saved_raise {A} e : keeps_saved (@raise A e).
Proof. intros w. reflexivity. Qed.

Lemma keeps_saved_emit l msg : keeps_saved (emit l msg).
Proof. intros w. reflexivity. Qed.

Lemma keeps_saved_get_page : keeps_saved get_page.
Proof. intros w. reflexivity. Qed.

Lemma keeps_saved_request {A} (f : Page -> A * Page) : keeps_saved (request f).
Proof. intros w. unfold request. destruct (f (page w)). reflexivity. Qed.

Lemma keeps_saved_submit {A} (f : Page -> (exn + A) * Page) :
  keeps_saved (submit f).
Proof. intros w. unfold submit. destruct (f (page w)). reflexivity. Qed.

Lemma keeps_saved_lift {A} (r : exn + A) : keeps_saved (lift r).
Proof. intros w. destruct r; reflexivity. Qed.

Lemma keeps_saved_getitem d key : keeps_saved (getitem d key).
Proof. intros w. unfold getitem. destruct (d !! key); reflexivity. Qed.

Lemma keeps_saved_bind {A B} (m : M A) (f : A -> M B) :
  keeps_saved m -> (forall a, keeps_saved (f a)) -> keeps_saved (bind m f).
Proof.
  intros Hm Hf w. unfold bind. specialize (Hm w).
  destruct (m w) as [[e|a] w1]; simpl in *.
  - exact Hm.
  - rewrite Hf. exact Hm.
Qed.

Lemma keeps_saved_try_except {A} (m : M A) (h : exn -> M A) :
  keeps_saved m -> (forall e, keeps_saved (h e)) -> keeps_saved (try_except m h).
Proof.
  intros Hm Hh w. unfold try_except. specialize (Hm w).
  destruct (m w) as [[e|a] w1]; simpl in *.
  - rewrite Hh. exact Hm.
  - exact Hm.
Qed.

Lemma keeps_saved_for_each {A} (l : list A) (body : A -> M unit) :
  (forall a, keeps_saved (body a)) -> keeps_saved (for_each l body).
Proof.
  intros Hb. induction l as [|x r IH]; simpl.
  - apply keeps_saved_ret.
  - apply keeps_saved_bind; auto.
Qed.

Create HintDb keeps discriminated.
#[export] Hint Resolve keeps_saved_ret keeps_saved_raise keeps_saved_emit
  keeps_saved_get_page keeps_saved_request keeps_saved_submit keeps_saved_lift
  keeps_saved_getitem : keeps.

(** Splits a goal [keeps_saved m] along the shape of [m]. *)
Ltac keeps :=
  repeat first
    [ progress auto with keeps
    | apply keeps_saved_bind; [| intros ? ]
    | apply keeps_saved_try_except; [| intros ? ]
    | apply keeps_saved_for_each; intros ?
    | match goal with
      | |- keeps_saved (if ?b then _ else _) => destruct b
      | |- keeps_saved (match ?x with _ => _ end) => destruct x
      | |- keeps_saved (let '(_, _) := ?x in _) => destruct x
      end ].

Section Frame.

Context `{Collaborators}.

Lemma keeps_saved_log msg : keeps_saved (log msg).
Proof. apply keeps_saved_emit. Qed.

Lemma keeps_saved_int_prec t : keeps_saved (int_prec t).
Proof. unfold int_prec. keeps. Qed.

Lemma keeps_saved_should_set_location old new desc :
  keeps_saved (should_set_location old new desc).
Proof.
  pose proof keeps_saved_log. pose proof keeps_saved_int_prec.
  unfold should_set_location. keeps.
Qed.

Lemma keeps_saved_get_sdc_statements : keeps_saved get_sdc_statements.
Proof. unfold get_sdc_statements. keeps. Qed.

Lemma keeps_saved_has_sdc_geocoding : keeps_saved has_sdc_geocoding.
Proof.
  pose proof keeps_saved_get_sdc_statements.
  unfold has_sdc_geocoding. keeps.
Qed.

Lemma keeps_saved_unmodified row :
  keeps_saved (unmodified_on_geograph_since_upload row).
Proof.
  pose proof keeps_saved_log.
  unfold unmodified_on_geograph_since_upload. keeps.
Qed.

Lemma keeps_saved_update_locations row tree mapit old_cam old_obj :
  keeps_saved (update_locations row tree mapit old_cam old_obj).
Proof.
  pose proof keeps_saved_log. pose proof keeps_saved_should_set_location.
  pose proof keeps_saved_get_sdc_statements.
  pose proof keeps_saved_has_sdc_geocoding.
  unfold update_locations. keeps.
Qed.

Lemma keeps_saved_update_creditline row tree :
  keeps_saved (update_creditline row tree).
Proof.
  pose proof keeps_saved_log. pose proof keeps_saved_unmodified.
  unfold update_creditline. keeps.
Qed.

Lemma keeps_saved_snapshot_and_decide : keeps_saved snapshot_and_decide.
Proof.
  pose proof keeps_saved_log. pose proof keeps_saved_update_locations.
  pose proof keeps_saved_update_creditline.
  unfold snapshot_and_decide. keeps.
Qed.

End Frame.

(** ** The slot decision and the location step *)

Lemma template_eq_refl t : template_eq t t = true.
Proof. destruct t as [x|]; simpl; [apply String.eqb_refl | reflexivity]. Qed.

Lemma lt_int_true x n : (x < inject_Z n)%Q -> Py.lt_int x n = true.
Proof.
  intros Hlt. unfold Py.lt_int.
  destruct (Qle_bool (inject_Z n) x) eqn:E; [| reflexivity].
  apply Qle_bool_iff in E. exfalso. exact (Qlt_not_le _ _ Hlt E).
Qed.

Section Slots.

Context `{Collaborators}.

Lemma int_prec_ok t n w : prec_of t = Some n -> int_prec t w = (inr n, w).
Proof.
  unfold int_prec, prec_of.
  destruct (template_get t "prec") as [p|]; [| discriminate].
  destruct (Py.int (param_value p)); [| discriminate].
  intros [= ->]. reflexivity.
Qed.

Lemma int_prec_fails t w :
  prec_of t = None -> exists e, int_prec t w = (inl e, w).
Proof.
  unfold int_prec, prec_of.
  destruct (template_get t "prec") as [p|]; [| eauto].
  destruct (Py.int (param_value p)); [discriminate | eauto].
Qed.

(** C9. If one of the two slots holds a location whose source does not
    match [^geograph(-|$)], the location step changes neither slot: the
    tree is the one it was given and none of the six location flags is set,
    whatever the other slot holds and whatever the row would yield. *)
Theorem foreign_provenance_freezes_both_slots
    row tree mapit old_location old_object_location w :
  foreign old_location \/ foreign old_object_location ->
  exists l,
    update_locations row tree mapit old_location old_object_location w
      = (inr l, w)
    /\ l_tree l = tree /\ l_flags l = no_flags.
Proof.
  intros Hf. exists (mkLocated tree mapit None None no_flags).
  split; [| split; reflexivity].
  unfold update_locations.
  destruct Hf as [(t & -> & Hs) | (t & -> & Hs)].
  - cbn [template_eq andb orb]. rewrite Hs. reflexivity.
  - rewrite Hs.
    destruct old_location as [c|]; cbn [template_eq andb orb].
    + rewrite andb_false_r. reflexivity.
    + reflexivity.
Qed.

(** C10. On a page with no geocoding at all, the camera location of the row
    is written, and [location_added] set, exactly when the row yields one
    and its [prec] value is not the string 1000; the object location is
    written and [object_location_added] set in every case, also when the
    row yields no object location. *)
Theorem no_geocoding_adds_from_row
    row tree mapit w new_location m1 new_object_location m2 :
  location_from_row row (mkMapIt true (used mapit)) = (new_location, m1) ->
  object_location_from_row row m1 = (new_object_location, m2) ->
  (forall t, new_location = Some t -> is_Some (template_get t "prec")) ->
  let add_camera :=
    match new_location with
    | Some t => negb (prec_is t "1000")
    | None => false
    end in
  update_locations row tree mapit None None w
    = (inr (mkLocated
              (set_object_location
                 (if add_camera then set_location tree new_location
                  else tree)
                 new_object_location)
              m2 new_location new_object_location
              (mkFlags add_camera false false true false false false)),
       w).
Proof.
  intros Hcam Hobj Hprec add_camera. subst add_camera.
  unfold update_locations. cbn [template_eq andb].
  rewrite Hcam, Hobj.
  destruct new_location as [t|].
  - destruct (Hprec t eq_refl) as [p Hp].
    unfold prec_is. rewrite Hp. reflexivity.
  - reflexivity.
Qed.

(** C7. Deciding a slot with the same value as old and as candidate never
    asks for a write: [should_set_location t t desc] returns [False].  The
    only other outcome is an exception, for a template that carries no
    source or whose [prec] is not an integer. *)
Theorem should_set_location_same t desc w :
  match fst (should_set_location t t desc w) with
  | inr b => b = false
  | inl e =>
      exists x, t = Some x /\
        (location_params (Some x) !! "source" = None \/ prec_of x = None)
  end.
Proof.
  unfold should_set_location. rewrite template_eq_refl.
  destruct t as [x|]; [| reflexivity].
  unfold bind at 1. unfold bind at 1. unfold getitem at 1.
  destruct (location_params (Some x) !! "source") as [source|] eqn:Hs.
  2: { simpl. eauto. }
  cbn [ret].
  assert (Hlast : forall w1,
    match fst ((do old_source <- getitem (location_params (Some x)) "source";
                do new_source <- getitem (location_params (Some x)) "source";
                if String.eqb old_source new_source
                then do _ <- log (Py.capitalize desc
                                    +:+ " gridref unchanged: not updating");
                     ret false
                else ret false) w1) with
    | inr b => b = false
    | inl e =>
        exists x0, Some x = Some x0 /\
          (location_params (Some x0) !! "source" = None \/ prec_of x0 = None)
    end).
  { intros w1. unfold bind, getitem. rewrite Hs. cbn [ret].
    rewrite String.eqb_refl. reflexivity. }
  destruct (negb (Py.contains "-" source)); [| apply Hlast].
  destruct (template_has x "4").
  - unfold bind at 1. cbn [log emit ret]. apply Hlast.
  - destruct (az_dist_between_locations (Some x) (Some x)) as [[azon azno] dist].
    unfold bind at 1.
    destruct (prec_of x) as [n|] eqn:Hp.
    + rewrite (int_prec_ok x n w Hp). destruct (Py.lt_int dist n).
      * unfold bind at 1. cbn [log emit ret]. apply Hlast.
      * cbn [ret]. apply Hlast.
    + destruct (int_prec_fails x w Hp) as [e He]. rewrite He. simpl. eauto.
Qed.

(** C2, as the code has it.  When the old location carries a source with no
    hyphen (no grid reference) and the candidate lies nearer to it than the
    candidate's [prec] in metres, [should_set_location] returns [False]. *)
Theorem small_move_without_gridref_not_updated
    old new desc w source new_source prec :
  location_params (Some old) !! "source" = Some source ->
  Py.contains "-" source = false ->
  location_params (Some new) !! "source" = Some new_source ->
  prec_of new = Some prec ->
  (snd (az_dist_between_locations (Some old) (Some new)) < inject_Z prec)%Q ->
  fst (should_set_location (Some old) (Some new) desc w) = inr false.
Proof.
  intros Hs Hno Hn Hp Hd.
  unfold should_set_location.
  unfold bind at 1. unfold bind at 1. unfold getitem at 1.
  rewrite Hs. cbn [ret]. rewrite Hno. cbn [negb].
  assert (Hlast : forall w1,
    fst ((do old_source <- getitem (location_params (Some old)) "source";
          do new_source <- getitem (location_params (Some new)) "source";
          if String.eqb old_source new_source
          then do _ <- log (Py.capitalize desc
                              +:+ " gridref unchanged: not updating");
               ret false
          else ret false) w1) = inr false).
  { intros w1. unfold bind, getitem. rewrite Hs, Hn. cbn [ret].
    destruct (String.eqb source new_source); reflexivity. }
  destruct (template_has old "4").
  - unfold bind at 1. cbn [log emit ret]. apply Hlast.
  - destruct (az_dist_between_locations (Some old) (Some new))
      as [[azon azno] dist].
    unfold bind at 1. rewrite (int_prec_ok new prec w Hp).
    rewrite (lt_int_true dist prec Hd).
    unfold bind at 1. cbn [log emit ret]. apply Hlast.
Qed.

Lemma has_sdc_geocoding_true w :
  overlay_has_geocoding -> exists w1, has_sdc_geocoding w = (inr true, w1).
Proof.
  intros Ho.
  unfold has_sdc_geocoding, get_sdc_statements, bind, get_page, submit.
  destruct (Ho ("M" +:+ pretty (pageid (page w))) (page w))
    as (entities & statements & Ha & He & Hg).
  destruct (wbgetentities _ (page w)) as [data p]. cbn [fst] in Ha.
  subst data. cbn [ret]. rewrite He. cbn [ret].
  change (default ∅ (Some statements)) with statements.
  rewrite Hg. eauto.
Qed.

Lemma write_slot_false set from_row row old new tree mapit :
  write_slot set from_row false row old new tree mapit
    = (tree, mapit, (false, false, false)).
Proof. reflexivity. Qed.

(** C1, as the code has it.  When at least one slot holds a location and
    the overlay holds a [P625] or [P1259] statement, the location step
    leaves the tree as it was and sets none of the six location flags. *)
Theorem sdc_geocoding_suppresses_updates
    row tree mapit old_location old_object_location w l w' :
  old_location <> None \/ old_object_location <> None ->
  overlay_has_geocoding ->
  update_locations row tree mapit old_location old_object_location w
    = (inr l, w') ->
  l_tree l = tree /\ l_flags l = no_flags.
Proof.
  intros Hold Ho. unfold update_locations.
  assert (E : template_eq old_location None
              && template_eq old_object_location None = false).
  { destruct old_location, old_object_location; try reflexivity.
    destruct Hold; congruence. }
  rewrite E. clear E.
  match goal with |- context [if ?c then _ else _] => destruct c end.
  2: { intros [= <- <-]. split; reflexivity. }
  intros Hrun.
  apply bind_inr in Hrun as (u & w1 & _ & Hrun).
  destruct (location_from_row row mapit) as [new_location m1].
  destruct (object_location_from_row row m1) as [new_object_location m2].
  apply bind_inr in Hrun as (sc & w2 & _ & Hrun).
  apply bind_inr in Hrun as (so & w3 & _ & Hrun).
  apply bind_inr in Hrun as (st & w4 & _ & Hrun).
  apply bind_inr in Hrun as (u1 & w5 & _ & Hrun).
  apply bind_inr in Hrun as (u2 & w6 & _ & Hrun).
  apply bind_inr in Hrun as (suppress & w7 & Hsup & Hrun).
  apply bind_inr in Hrun as (u3 & w8 & _ & Hrun).
  assert (Hc : (if suppress then false else sc) = false
               /\ (if suppress then false else so) = false).
  { destruct (sc || so) eqn:E.
    - destruct (has_sdc_geocoding_true w6 Ho) as [w9 E9].
      rewrite E9 in Hsup. injection Hsup as <- _. split; reflexivity.
    - apply orb_false_elim in E as [-> ->].
      destruct suppress; split; reflexivity. }
  destruct Hc as [Hc1 Hc2]. rewrite Hc1, Hc2, !write_slot_false in Hrun.
  injection Hrun as <- _. split; reflexivity.
Qed.

End Slots.

(** ** The credit line, the summary, the commit and the exception boundary *)

Lemma neq_eqb_false (a b : string) : a <> b -> String.eqb a b = false.
Proof. intros Hn. apply String.eqb_neq. exact Hn. Qed.

Section Orchestration.

Context `{Collaborators}.

(** C5. For a row whose update timestamp parses, the credit line is added
    exactly when the text can take it and the update timestamp, read in
    Europe/London, is strictly earlier than the timestamp of the first
    revision, read in UTC; on an equal or later update timestamp nothing is
    added. *)
Theorem creditline_needs_fresh_row row tree w g :
  strptime (upd_timestamp row) = Some g ->
  let creditline := creditline_from_row row in
  let commons := fst (oldest_revision_timestamp (page w)) in
  exists tree' added w',
    update_creditline row tree w = (inr (tree', added), w')
    /\ (added = true <->
        can_add_creditline tree creditline = true
        /\ g - london_utcoffset g < commons)
    /\ tree' = (if added then add_creditline tree creditline else tree).
Proof.
  intros Hg creditline commons. subst creditline commons.
  unfold update_creditline. unfold bind at 1.
  destruct (can_add_creditline tree (creditline_from_row row)) eqn:Hcan.
  - unfold unmodified_on_geograph_since_upload, bind, request.
    destruct (oldest_revision_timestamp (page w)) as [c p]. rewrite Hg.
    cbn [ret log emit fst]. unfold datetime_lt. cbn [wall utcoffset].
    rewrite Z.sub_0_r.
    destruct (Z.ltb_spec (g - london_utcoffset g) c) as [Hlt|Hge].
    + do 3 eexists. split; [reflexivity|]. split; [| reflexivity].
      split; auto.
    + do 3 eexists. split; [reflexivity|]. split; [| reflexivity].
      split; [discriminate | intros [_ ?]; lia].
  - cbn [ret]. unfold bind. cbn [log emit ret].
    do 3 eexists. split; [reflexivity|]. split; [| reflexivity].
    split; [discriminate | intros [? _]; discriminate].
Qed.

(** C8. When the credit-line flag is set, the summary is the credit-line
    clause alone if the location part is empty, and the location part, a
    semicolon and a space, and the clause otherwise; the MapIt notice, when
    the service was used, follows it. *)
Theorem creditline_clause_in_summary d :
  creditline_added (d_flags d) = true ->
  let base :=
    location_summary (d_flags d) (d_row d)
      (d_old_location d) (d_new_location d)
      (d_old_object_location d) (d_new_object_location d) in
  edit_summary d =
    mapit_clause (d_mapit d)
      (if String.eqb base EmptyString
       then "Add credit line with title from Geograph"
       else base +:+ "; " +:+ "add credit line with title from Geograph")
  /\ (used (d_mapit d) = false ->
      edit_summary d =
        if String.eqb base EmptyString
        then "Add credit line with title from Geograph"
        else base +:+ "; " +:+ "add credit line with title from Geograph").
Proof.
  intros Hc base. unfold edit_summary, creditline_clause. rewrite Hc.
  fold base. split; [reflexivity|].
  intros Hu. unfold mapit_clause. rewrite Hu. reflexivity.
Qed.

Lemma snapshot_revid w d w1 :
  snapshot_and_decide w = (inr d, w1) ->
  d_revid d = latest_revision_id (page w) /\ d_minor d = false.
Proof.
  unfold snapshot_and_decide. intros Hrun.
  apply bind_inr in Hrun as (p & w2 & Hp & Hrun).
  unfold get_page in Hp. injection Hp as <- <-.
  apply bind_inr in Hrun as (p1 & w3 & _ & Hrun).
  apply bind_inr in Hrun as (id & w4 & _ & Hrun).
  apply bind_inr in Hrun as (found & w4' & _ & Hrun).
  apply bind_inr in Hrun as (row & w5 & _ & Hrun).
  apply bind_inr in Hrun as (old_location & w6 & _ & Hrun).
  apply bind_inr in Hrun as (old_object_location & w7 & _ & Hrun).
  apply bind_inr in Hrun as (u1 & w8 & _ & Hrun).
  apply bind_inr in Hrun as (u2 & w9 & _ & Hrun).
  apply bind_inr in Hrun as (l & w10 & _ & Hrun).
  apply bind_inr in Hrun as ([tree added] & w11 & _ & Hrun).
  unfold ret in Hrun. injection Hrun as <- _. split; reflexivity.
Qed.

(** C4. When the text of the tree after all decisions is the text of the
    page, [process_page] returns with the world as the decisions left it:
    nothing is saved and the page text is not assigned, whatever flags the
    decisions set. *)
Theorem unchanged_text_is_not_saved depth w d w1 :
  snapshot_and_decide w = (inr d, w1) ->
  str_tree (d_tree d) = text (page w1) ->
  process_page (S depth) w = (inr tt, w1) /\ saved w1 = saved w.
Proof.
  intros Hd Ht. split.
  - cbn [process_page]. rewrite (bind_ok _ _ _ _ _ Hd).
    unfold bind at 1. cbn [get_page]. rewrite Ht, String.eqb_refl.
    reflexivity.
  - pose proof (keeps_saved_snapshot_and_decide w) as K.
    rewrite Hd in K. exact K.
Qed.

Lemma page_unchanged_is_not_saved depth w d w1 :
  snapshot_and_decide w = (inr d, w1) ->
  str_tree (d_tree d) = text (page w1) ->
  saved (snd (process_page (S depth) w)) = saved w.
Proof.
  intros Hd Ht. cbn [process_page]. rewrite (bind_ok _ _ _ _ _ Hd).
  unfold bind at 1. cbn [get_page]. rewrite Ht, String.eqb_refl.
  pose proof (keeps_saved_snapshot_and_decide w) as K.
  rewrite Hd in K. exact K.
Qed.

Lemma restart_on_drift depth w d w1 :
  snapshot_and_decide w = (inr d, w1) ->
  str_tree (d_tree d) <> text (page w1) ->
  latest_revision_id (page w1) <> d_revid d ->
  exists w2,
    page w2 = page w1 /\ saved w2 = saved w
    /\ process_page (S depth) w = process_page depth w2.
Proof.
  intros Hd Ht Hr.
  pose proof (keeps_saved_snapshot_and_decide w) as K. rewrite Hd in K.
  eexists (mkWorld (page w1) _ (saved w1)).
  split; [reflexivity|]. split; [exact K|].
  cbn [process_page]. rewrite (bind_ok _ _ _ _ _ Hd).
  unfold bind at 1. cbn [get_page].
  rewrite (neq_eqb_false _ _ Ht). cbn [negb].
  unfold bind at 1. cbn [log emit].
  unfold bind at 1. cbn [get_page page].
  apply Z.eqb_neq in Hr. rewrite Hr. cbn [negb].
  unfold bind at 1. cbn [log emit page journal saved]. reflexivity.
Qed.

Lemma validated_attempt depth w d w1 :
  snapshot_and_decide w = (inr d, w1) ->
  str_tree (d_tree d) <> text (page w1) ->
  latest_revision_id (page w1) = d_revid d ->
  process_page (S depth) w
    = match
        save_page
          (mkPage (pageid (page w1)) (str_tree (d_tree d)) (d_revid d))
          (edit_summary d) false
      with
      | inr newrevid =>
          (inr tt,
           mkWorld
             (mkPage (pageid (page w1)) (str_tree (d_tree d)) newrevid)
             (journal w1 ++ [(VERBOSE, "edit summary: " +:+ edit_summary d)])
             (saved w
                ++ [mkCommit (str_tree (d_tree d)) (edit_summary d) false]))
      | inl e =>
          (inl e,
           mkWorld
             (mkPage (pageid (page w1)) (str_tree (d_tree d)) (d_revid d))
             (journal w1 ++ [(VERBOSE, "edit summary: " +:+ edit_summary d)])
             (saved w))
      end.
Proof.
  intros Hd Ht Hr.
  pose proof (keeps_saved_snapshot_and_decide w) as K. rewrite Hd in K.
  cbn [snd] in K.
  destruct (snapshot_revid w d w1 Hd) as [Hrev Hminor].
  cbn [process_page]. rewrite (bind_ok _ _ _ _ _ Hd).
  unfold bind at 1. cbn [get_page].
  rewrite (neq_eqb_false _ _ Ht). cbn [negb].
  unfold bind at 1. cbn [log emit].
  unfold bind at 1. cbn [get_page page].
  rewrite Hr, Z.eqb_refl. cbn [negb].
  unfold bind, set_text, save. cbn. rewrite K, Hminor, Hr.
  destruct (save_page _ _ _); reflexivity.
Qed.

Lemma commits_are_validated depth : forall w,
  let w' := snd (process_page depth w) in
  saved w' = saved w \/
  exists w0 d w1,
    snapshot_and_decide w0 = (inr d, w1)
    /\ d_revid d = latest_revision_id (page w0)
    /\ latest_revision_id (page w1) = d_revid d
    /\ saved w' =
         (saved w
            ++ [mkCommit (str_tree (d_tree d)) (edit_summary d) false])%list.
Proof.
  induction depth as [|depth IH]; intros w; cbn zeta.
  - left. reflexivity.
  - pose proof (keeps_saved_snapshot_and_decide w) as K.
    destruct (snapshot_and_decide w) as [[e|d] w1] eqn:Hd; cbn [snd] in K.
    + left. cbn [process_page]. rewrite (bind_err _ _ _ _ _ Hd). exact K.
    + destruct (String.eqb_spec (str_tree (d_tree d)) (text (page w1)))
        as [Ht|Ht].
      * left. exact (page_unchanged_is_not_saved depth w d w1 Hd Ht).
      * destruct (Z.eq_dec (latest_revision_id (page w1)) (d_revid d))
          as [Hr|Hr].
        -- rewrite (validated_attempt depth w d w1 Hd Ht Hr).
           destruct (save_page _ _ _) as [e|newrevid]; [left; reflexivity|].
           right. exists w, d, w1.
           destruct (snapshot_revid w d w1 Hd) as [Hrev _].
           repeat split; auto.
        -- destruct (restart_on_drift depth w d w1 Hd Ht Hr)
             as (w2 & Hp & Hs & ->).
           specialize (IH w2). cbn zeta in IH. rewrite Hs in IH. exact IH.
Qed.

(** C6. When the revision identifier read before saving differs from the
    one read at the start, [process_page] saves nothing of that attempt and
    runs again from the page as it now stands; and every commit that
    [process_page] makes holds the text of an attempt whose revision
    identifier was still the one it started from. *)
Theorem stale_snapshot_is_never_saved :
  (forall depth w d w1,
     snapshot_and_decide w = (inr d, w1) ->
     str_tree (d_tree d) <> text (page w1) ->
     latest_revision_id (page w1) <> d_revid d ->
     exists w2,
       page w2 = page w1 /\ saved w2 = saved w
       /\ process_page (S depth) w = process_page depth w2)
  /\ (forall depth w,
        let w' := snd (process_page depth w) in
        saved w' = saved w \/
        exists w0 d w1,
          snapshot_and_decide w0 = (inr d, w1)
          /\ d_revid d = latest_revision_id (page w0)
          /\ latest_revision_id (page w1) = d_revid d
          /\ saved w' =
               (saved w
                  ++ [mkCommit (str_tree (d_tree d)) (edit_summary d)
                               false])%list).
Proof.
  split.
  - exact restart_on_drift.
  - intros depth w. exact (commits_are_validated depth w).
Qed.


End Orchestration.

(** ** The bot on the small wiki *)

(** C1 as stated fails: on a page with both slots empty whose overlay holds a
    [P625] statement, the bot adds both locations and saves the page. *)
Lemma sdc_gate_skipped_on_empty_slots :
  @has_sdc_geocoding Demo.geocoded (Demo.world Demo.page123) = (inr true, Demo.world Demo.page123)
  /\ @get_location Demo.geocoded (@parse Demo.geocoded (text (page (Demo.world Demo.page123))))
       = inl (mkExn IndexError "list index out of range")
  /\ @get_object_location Demo.geocoded (@parse Demo.geocoded (text (page (Demo.world Demo.page123))))
       = inl (mkExn IndexError "list index out of range")
  /\ saved (snd (@process_page Demo.geocoded 1 (Demo.world Demo.page123)))
       = [mkCommit
            "{{Geograph|123}}{{Location|51.5018|-0.1203|source:geograph-osgb36(TQ30168034)|prec=100}}{{Object location|51.5031|-0.1195|source:geograph-osgb36(TQ30218048)|prec=10}}{{Credit line|Author=A. Walker}}"
            "Add camera and object locations from Geograph (geograph.org.uk/photo/123); add credit line with title from Geograph"
            false].
Proof. repeat split; vm_compute; reflexivity. Qed.

(** The gate at work: a located page, a row that would move the camera
    and add the object, and an overlay with a coordinate statement. *)
Lemma sdc_geocoding_suppresses_updates_witness :
  (Some Demo.camera_gridref <> None \/ (None : option Template) <> None)
  /\ @overlay_has_geocoding Demo.geocoded
  /\ @update_locations Demo.geocoded Demo.row123 Demo.page123_located (mkMapIt false false)
       (Some Demo.camera_gridref) None (Demo.world Demo.page123_located)
     = (inr Demo.located_unchanged, Demo.suppressed)
  /\ l_tree Demo.located_unchanged = Demo.page123_located
  /\ l_flags Demo.located_unchanged = no_flags.
Proof.
  assert (H1 : Some Demo.camera_gridref <> None \/ (None : option Template) <> None)
    by (left; discriminate).
  assert (H2 : @overlay_has_geocoding Demo.geocoded).
  { intros mediaid p.
    exists {[ mediaid := Demo.geocoded_overlay ]}, {[ "P625" := ["M1$6D2F"] ]}.
    split; [reflexivity|].
    split; [apply lookup_singleton_eq | vm_compute; reflexivity]. }
  assert (H3 : @update_locations Demo.geocoded Demo.row123 Demo.page123_located
                 (mkMapIt false false) (Some Demo.camera_gridref) None
                 (Demo.world Demo.page123_located)
               = (inr Demo.located_unchanged, Demo.suppressed))
    by (vm_compute; reflexivity).
  split; [exact H1|]. split; [exact H2|]. split; [exact H3|].
  exact (@sdc_geocoding_suppresses_updates Demo.geocoded _ _ _ _ _ _ _ _ H1 H2 H3).
Defined.

(** C2 as stated fails: the old source carries a grid reference (it has a
    hyphen), the candidate is 200 m away with a precision of 1000 m, and
    [should_set_location] returns [True]. *)
Lemma gridref_sourced_small_move_is_updated :
  @location_params Demo.plain (Some Demo.camera_gridref) !! "source"
    = Some "geograph-osgb36(TQ3080)"
  /\ Py.contains "-" "geograph-osgb36(TQ3080)" = true
  /\ prec_of Demo.camera_moved = Some 1000
  /\ (snd (@az_dist_between_locations Demo.plain (Some Demo.camera_gridref)
             (Some Demo.camera_moved)) < inject_Z 1000)%Q
  /\ fst (@should_set_location Demo.plain (Some Demo.camera_gridref) (Some Demo.camera_moved)
            "camera" (Demo.world Demo.page123_located)) = inr true.
Proof. repeat split; vm_compute; reflexivity. Qed.

(** The same move from an old location whose source is plain [geograph]. *)
Lemma small_move_without_gridref_not_updated_witness :
  @location_params Demo.plain (Some Demo.camera_1km) !! "source" = Some "geograph"
  /\ Py.contains "-" "geograph" = false
  /\ @location_params Demo.plain (Some Demo.camera_moved) !! "source"
       = Some "geograph-osgb36(TQ3081)"
  /\ prec_of Demo.camera_moved = Some 1000
  /\ (snd (@az_dist_between_locations Demo.plain (Some Demo.camera_1km)
             (Some Demo.camera_moved)) < inject_Z 1000)%Q
  /\ fst (@should_set_location Demo.plain (Some Demo.camera_1km) (Some Demo.camera_moved)
            "camera" (Demo.world Demo.page123_located)) = inr false.
Proof.
  assert (H1 : @location_params Demo.plain (Some Demo.camera_1km) !! "source"
               = Some "geograph") by (vm_compute; reflexivity).
  assert (H2 : Py.contains "-" "geograph" = false) by reflexivity.
  assert (H3 : @location_params Demo.plain (Some Demo.camera_moved) !! "source"
               = Some "geograph-osgb36(TQ3081)") by (vm_compute; reflexivity).
  assert (H4 : prec_of Demo.camera_moved = Some 1000) by reflexivity.
  assert (H5 : (snd (@az_dist_between_locations Demo.plain (Some Demo.camera_1km)
                       (Some Demo.camera_moved)) < inject_Z 1000)%Q)
    by (vm_compute; reflexivity).
  repeat (split; [assumption|]).
  exact (@small_move_without_gridref_not_updated Demo.plain _ _ "camera"
           (Demo.world Demo.page123_located) _ _ _ H1 H2 H3 H4 H5).
Defined.


(** A camera location from another source, and an empty object slot. *)
Lemma foreign_provenance_freezes_both_slots_witness :
  (@foreign Demo.plain (Some Demo.camera_foreign) \/ @foreign Demo.plain None)
  /\ exists l,
       @update_locations Demo.plain Demo.row123
         [Demo.Tmpl (Demo.geograph "123"); Demo.Tmpl Demo.camera_foreign] (mkMapIt false false)
         (Some Demo.camera_foreign) None (Demo.world Demo.page123) = (inr l, Demo.world Demo.page123)
       /\ l_tree l = [Demo.Tmpl (Demo.geograph "123"); Demo.Tmpl Demo.camera_foreign]
       /\ l_flags l = no_flags.
Proof.
  assert (H1 : @foreign Demo.plain (Some Demo.camera_foreign) \/ @foreign Demo.plain None).
  { left. exists Demo.camera_foreign. split; [reflexivity | vm_compute; reflexivity]. }
  split; [exact H1|].
  exact (@foreign_provenance_freezes_both_slots Demo.plain Demo.row123 _ _ _ _ _ H1).
Defined.

(** Page 123 with no geocoding and a row with both locations. *)
Lemma no_geocoding_adds_from_row_witness :
  @location_from_row Demo.plain Demo.row123 (mkMapIt true false)
    = (Some Demo.camera_new, mkMapIt true false)
  /\ @object_location_from_row Demo.plain Demo.row123 (mkMapIt true false)
    = (Some Demo.subject_new, mkMapIt true false)
  /\ (forall t, Some Demo.camera_new = Some t -> is_Some (template_get t "prec"))
  /\ @update_locations Demo.plain Demo.row123 Demo.page123 (mkMapIt false false) None None
       (Demo.world Demo.page123)
     = (inr (@mkLocated Demo.plain
               (Demo.page123 ++ [Demo.Tmpl Demo.camera_new; Demo.Tmpl Demo.subject_new])%list
               (mkMapIt true false) (Some Demo.camera_new) (Some Demo.subject_new)
               (mkFlags true false false true false false false)),
        Demo.world Demo.page123).
Proof.
  assert (H1 : @location_from_row Demo.plain Demo.row123 (mkMapIt true false)
               = (Some Demo.camera_new, mkMapIt true false)) by reflexivity.
  assert (H2 : @object_location_from_row Demo.plain Demo.row123 (mkMapIt true false)
               = (Some Demo.subject_new, mkMapIt true false)) by reflexivity.
  assert (H3 : forall t, Some Demo.camera_new = Some t ->
                         is_Some (template_get t "prec")).
  { intros t [= <-]. eexists. reflexivity. }
  split; [exact H1|]. split; [exact H2|]. split; [exact H3|].
  exact (@no_geocoding_adds_from_row Demo.plain Demo.row123 Demo.page123 (mkMapIt false false)
           (Demo.world Demo.page123) _ _ _ _ H1 H2 H3).
Defined.

(** Row 123 was last updated in June 2009, before the page was created. *)
Lemma creditline_needs_fresh_row_witness :
  @strptime Demo.plain (@upd_timestamp Demo.plain Demo.row123) = Some 1243857600
  /\ exists tree' added w',
       @update_creditline Demo.plain Demo.row123 Demo.page123 (Demo.world Demo.page123)
         = (inr (tree', added), w')
       /\ (added = true <->
           @can_add_creditline Demo.plain Demo.page123 (Demo.credit Demo.row123) = true
           /\ 1243857600 - 3600 < Demo.created)
       /\ tree' = (if added then (Demo.page123 ++ [Demo.Text (Demo.credit Demo.row123)])%list
                   else Demo.page123).
Proof.
  assert (H1 : @strptime Demo.plain (@upd_timestamp Demo.plain Demo.row123) = Some 1243857600)
    by reflexivity.
  split; [exact H1|].
  exact (@creditline_needs_fresh_row Demo.plain Demo.row123 Demo.page123 (Demo.world Demo.page123) _ H1).
Defined.

(** The credit line alone. *)
Lemma creditline_clause_in_summary_witness :
  creditline_added (d_flags Demo.credit_only) = true
  /\ @edit_summary Demo.plain Demo.credit_only = "Add credit line with title from Geograph".
Proof.
  assert (H1 : creditline_added (d_flags Demo.credit_only) = true) by reflexivity.
  split; [exact H1|].
  exact (proj2 (@creditline_clause_in_summary Demo.plain Demo.credit_only H1) eq_refl).
Defined.

(** Page 124: the object flag is set, the text is the same, nothing is
    saved. *)
Lemma unchanged_text_is_not_saved_witness :
  @snapshot_and_decide Demo.plain (Demo.world Demo.page124) = (inr Demo.decided124, Demo.after124)
  /\ @str_tree Demo.plain (d_tree Demo.decided124) = text (page Demo.after124)
  /\ object_location_added (d_flags Demo.decided124) = true
  /\ @process_page Demo.plain 1 (Demo.world Demo.page124) = (inr tt, Demo.after124)
  /\ saved Demo.after124 = saved (Demo.world Demo.page124).
Proof.
  assert (H1 : @snapshot_and_decide Demo.plain (Demo.world Demo.page124)
               = (inr Demo.decided124, Demo.after124)) by (vm_compute; reflexivity).
  assert (H2 : @str_tree Demo.plain (d_tree Demo.decided124) = text (page Demo.after124))
    by reflexivity.
  split; [exact H1|]. split; [exact H2|]. split; [reflexivity|].
  exact (@unchanged_text_is_not_saved Demo.plain 0 _ _ _ H1 H2).
Defined.

(** Page 123 moves to revision 11 while the bot decides. *)
Lemma stale_snapshot_is_never_saved_witness :
  @snapshot_and_decide Demo.drifting (Demo.world Demo.page123) = (inr Demo.decided123, Demo.after123)
  /\ @str_tree Demo.drifting (d_tree Demo.decided123) <> text (page Demo.after123)
  /\ latest_revision_id (page Demo.after123) <> d_revid Demo.decided123
  /\ exists w2,
       page w2 = page Demo.after123 /\ saved w2 = saved (Demo.world Demo.page123)
       /\ @process_page Demo.drifting 2 (Demo.world Demo.page123) = @process_page Demo.drifting 1 w2.
Proof.
  assert (H1 : @snapshot_and_decide Demo.drifting (Demo.world Demo.page123)
               = (inr Demo.decided123, Demo.after123)) by (vm_compute; reflexivity).
  assert (H2 : @str_tree Demo.drifting (d_tree Demo.decided123) <> text (page Demo.after123)).
  { apply String.eqb_neq. vm_compute. reflexivity. }
  assert (H3 : latest_revision_id (page Demo.after123) <> d_revid Demo.decided123)
    by discriminate.
  split; [exact H1|]. split; [exact H2|]. split; [exact H3|].
  exact (proj1 (@stale_snapshot_is_never_saved Demo.drifting) 1%nat _ _ _ H1 H2 H3).
Defined.

(** After the restart the bot saves the text it computed at revision 11,
    which makes revision 12. *)
Example drift_then_commit :
  saved (snd (@process_page Demo.drifting 2 (Demo.world Demo.page123)))
    = [mkCommit (@str_tree Demo.drifting (d_tree Demo.decided123))
                "Add camera and object locations from Geograph (geograph.org.uk/photo/123); add credit line with title from Geograph"
                false]
  /\ latest_revision_id (page (snd (@process_page Demo.drifting 2 (Demo.world Demo.page123)))) = 12.
Proof. split; vm_compute; reflexivity. Qed.

(** ** The primitives on examples *)

Example int_accepts_blanks_and_underscores : Py.int " 1_000 " = Some 1000.
Proof. reflexivity. Qed.

Example int_accepts_sign : Py.int "-12" = Some (-12).
Proof. reflexivity. Qed.

Example int_rejects_double_underscore : Py.int "1__0" = None.
Proof. reflexivity. Qed.

Example format_1f_rounds : Py.format_1f (201 # 4) = "50.2".
Proof. vm_compute. reflexivity. Qed.

Example format_d_truncates : Py.format_d (2019 # 10) = "201".
Proof. vm_compute. reflexivity. Qed.

Example capitalize_camera : Py.capitalize "camera" = "Camera".
Proof. reflexivity. Qed.

Example geograph_with_gridref_matches :
  is_geograph_source "geograph-osgb36(TQ1234)" = true.
Proof. reflexivity. Qed.

Example geographical_does_not_match : is_geograph_source "geographical" = false.
Proof. reflexivity. Qed.

Example str_template_location :
  str_template Demo.camera_new
    = "{{Location|51.5018|-0.1203|source:geograph-osgb36(TQ30168034)|prec=100}}".
Proof. reflexivity. Qed.

Example bad_template_is_skipped :
  @treat_page Demo.plain 1 (Demo.world [Demo.Text "no template here"])
    = (inr tt,
       mkWorld (mkPage 1 "no template here" 10)
               [(WARNING, "list index out of range")] []).
Proof. vm_compute. reflexivity. Qed.

(** ** The log-only steps *)

Lemma only_logs_ret {A} (x : A) : only_logs (ret x).
Proof. intros w. repeat split. exists []. symmetry. apply app_nil_r. Qed.

Lemma only_logs_raise {A} e : only_logs (@raise A e).
Proof. intros w. repeat split. exists []. symmetry. apply app_nil_r. Qed.

Lemma only_logs_emit l msg : only_logs (emit l msg).
Proof. intros w. repeat split. eexists. reflexivity. Qed.

Lemma only_logs_getitem d key : only_logs (getitem d key).
Proof.
  unfold getitem.
  destruct (d !! key); [apply only_logs_ret | apply only_logs_raise].
Qed.

Lemma only_logs_bind {A B} (m : M A) (f : A -> M B) :
  only_logs m -> (forall a, only_logs (f a)) -> only_logs (bind m f).
Proof.
  intros Hm Hf w. unfold bind. destruct (Hm w) as (Hp & Hs & l1 & Hj).
  destruct (m w) as [[e|a] w1]; cbn [snd] in *.
  - repeat split; eauto.
  - destruct (Hf a w1) as (Hp2 & Hs2 & l2 & Hj2).
    repeat split; try congruence.
    exists (l1 ++ l2)%list. rewrite Hj2, Hj. symmetry. apply app_assoc.
Qed.

(** Splits a goal [only_logs m] along the shape of [m]. *)
Ltac only_logs :=
  repeat first
    [ apply only_logs_ret | apply only_logs_raise | apply only_logs_emit
    | apply only_logs_getitem
    | apply only_logs_bind; [| intros ? ]
    | match goal with
      | |- only_logs (if ?b then _ else _) => destruct b
      | |- only_logs (match ?x with _ => _ end) => destruct x
      | |- only_logs (let '(_, _) := ?x in _) => destruct x
      end ].

(** ** More on the slot decision *)

Section SlotDecision.

Context `{Collaborators}.

(** X1. [should_set_location] makes no request and no edit: it leaves the
    page object and the commits as they are and only appends to the log,
    also when it raises. *)
Theorem should_set_location_only_logs old new desc :
  only_logs (should_set_location old new desc).
Proof. unfold should_set_location, int_prec, log. only_logs. Qed.

(** X2. A slot that is empty on the page and present in the row, or present
    on the page and absent from the row, is always to be written: no source,
    precision or distance is looked at, and nothing is logged. *)
Theorem one_sided_slot_is_written t desc w :
  should_set_location None (Some t) desc w = (inr true, w)
  /\ should_set_location (Some t) None desc w = (inr true, w).
Proof. split; reflexivity. Qed.

(** X3. When the old and the new location carry the same source,
    [should_set_location] never returns [True]; it raises only when the
    source has no grid reference, the old template has no fourth parameter
    and the candidate has no integer [prec]. *)
Theorem unchanged_source_is_not_updated old new desc w s :
  location_params (Some old) !! "source" = Some s ->
  location_params (Some new) !! "source" = Some s ->
  match fst (should_set_location (Some old) (Some new) desc w) with
  | inr b => b = false
  | inl _ =>
      Py.contains "-" s = false /\ template_has old "4" = false
      /\ prec_of new = None
  end.
Proof.
  intros Ho Hn. unfold should_set_location.
  assert (Hlast : forall (b : bool) w1,
    match
      fst ((do old_source <- getitem (location_params (Some old)) "source";
            do new_source <- getitem (location_params (Some new)) "source";
            if String.eqb old_source new_source
            then do _ <- log (Py.capitalize desc
                                +:+ " gridref unchanged: not updating");
                 ret false
            else ret b) w1)
    with
    | inr b => b = false
    | inl _ =>
        Py.contains "-" s = false /\ template_has old "4" = false
        /\ prec_of new = None
    end).
  { intros b w1. unfold bind, getitem. rewrite Ho, Hn. cbn [ret].
    rewrite String.eqb_refl. reflexivity. }
  unfold bind at 1. unfold bind at 1. unfold getitem at 1.
  rewrite Ho. cbn [ret].
  destruct (Py.contains "-" s) eqn:Hc; cbn [negb].
  - apply Hlast.
  - destruct (template_has old "4") eqn:H4.
    + unfold bind at 1. cbn [log emit ret]. apply Hlast.
    + destruct (az_dist_between_locations (Some old) (Some new))
        as [[azon azno] dist].
      unfold bind at 1.
      destruct (prec_of new) as [n|] eqn:Hp.
      * rewrite (int_prec_ok new n w Hp). destruct (Py.lt_int dist n).
        -- unfold bind at 1. cbn [log emit ret]. apply Hlast.
        -- cbn [ret]. apply Hlast.
      * destruct (int_prec_fails new w Hp) as [e He]. rewrite He.
        cbn [fst]. auto.
Qed.

(** X4. An old location with no grid reference in its source and with a
    fourth positional parameter is left alone, whatever the candidate: its
    [prec] is not read and the distance is not computed. *)
Theorem dms_without_gridref_is_left_alone old new desc w s sn :
  location_params (Some old) !! "source" = Some s ->
  Py.contains "-" s = false ->
  template_has old "4" = true ->
  location_params (Some new) !! "source" = Some sn ->
  fst (should_set_location (Some old) (Some new) desc w) = inr false.
Proof.
  intros Ho Hc H4 Hn. unfold should_set_location.
  unfold bind at 1. unfold bind at 1. unfold getitem at 1.
  rewrite Ho. cbn [ret]. rewrite Hc, H4. cbn [negb].
  unfold bind at 1. cbn [log emit ret].
  unfold bind, getitem. rewrite Ho, Hn. cbn [ret].
  destruct (String.eqb s sn); reflexivity.
Qed.

(** X5. An old location whose source carries a grid reference is replaced
    as soon as the candidate has another text and another source: the
    distance and the precision play no part, and nothing is logged. *)
Theorem gridref_with_new_source_is_updated old new desc w s sn :
  template_eq (Some old) (Some new) = false ->
  location_params (Some old) !! "source" = Some s ->
  Py.contains "-" s = true ->
  location_params (Some new) !! "source" = Some sn ->
  s <> sn ->
  should_set_location (Some old) (Some new) desc w = (inr true, w).
Proof.
  intros He Ho Hc Hn Hne. unfold should_set_location.
  rewrite He.
  unfold bind at 1. unfold bind at 1. unfold getitem at 1.
  rewrite Ho. cbn [ret]. rewrite Hc. cbn [negb ret].
  unfold bind, getitem. rewrite Ho, Hn. cbn [ret].
  rewrite (neq_eqb_false _ _ Hne). reflexivity.
Qed.

(** X6. An old location with no grid reference and no fourth parameter is
    replaced when the candidate, of another source, lies at least its [prec]
    away: a move of exactly [prec] metres is already an update. *)
Theorem move_beyond_precision_is_updated old new desc w s sn prec :
  template_eq (Some old) (Some new) = false ->
  location_params (Some old) !! "source" = Some s ->
  Py.contains "-" s = false ->
  template_has old "4" = false ->
  prec_of new = Some prec ->
  (inject_Z prec <= snd (az_dist_between_locations (Some old) (Some new)))%Q ->
  location_params (Some new) !! "source" = Some sn ->
  s <> sn ->
  should_set_location (Some old) (Some new) desc w = (inr true, w).
Proof.
  intros He Ho Hc H4 Hp Hd Hn Hne. unfold should_set_location.
  rewrite He.
  unfold bind at 1. unfold bind at 1. unfold getitem at 1.
  rewrite Ho. cbn [ret]. rewrite Hc, H4. cbn [negb].
  destruct (az_dist_between_locations (Some old) (Some new))
    as [[azon azno] dist]. cbn [snd] in Hd.
  unfold bind at 1. rewrite (int_prec_ok new prec w Hp).
  assert (Hlt : Py.lt_int dist prec = false).
  { unfold Py.lt_int. apply Qle_bool_iff in Hd. rewrite Hd. reflexivity. }
  rewrite Hlt. cbn [ret].
  unfold bind, getitem. rewrite Ho, Hn. cbn [ret].
  rewrite (neq_eqb_false _ _ Hne). reflexivity.
Qed.

End SlotDecision.

(** ** More on the location step, the credit line and the summary *)

Section Steps.

Context `{Collaborators}.

Lemma write_slot_agrees set from_row b row old new tree mapit t m a r d :
  write_slot set from_row b row old new tree mapit = (t, m, (a, r, d)) ->
  slot_flags_agree a r d old new.
Proof.
  unfold write_slot, slot_flags_agree. destruct b.
  - destruct (from_row row mapit) as [l m'].
    destruct old, new; intros [= <- <- <- <- <-];
      repeat split; intros; try discriminate; eauto.
  - intros [= <- <- <- <- <-]. repeat split; intros; discriminate.
Qed.

(** X7. The flags of the location step agree with the slots: at most one
    flag is set per slot; the camera is added only to an empty slot from a
    row that yields one, replaced only when both are present, removed only
    when the row yields none; the object flags likewise, except that
    [object_location_added] does not ask the row to yield a location.  The
    step never sets the credit-line flag. *)
Theorem location_flags_agree_with_slots
    row tree mapit old_location old_object_location w l w' :
  update_locations row tree mapit old_location old_object_location w
    = (inr l, w') ->
  let f := l_flags l in
  slot_flags_agree (location_added f) (location_replaced f)
    (location_removed f) old_location (l_new_location l)
  /\ (object_location_added f = true ->
      old_object_location = None /\ object_location_replaced f = false
      /\ object_location_removed f = false)
  /\ (object_location_replaced f = true ->
      is_Some old_object_location /\ is_Some (l_new_object_location l)
      /\ object_location_removed f = false)
  /\ (object_location_removed f = true ->
      is_Some old_object_location /\ l_new_object_location l = None)
  /\ creditline_added f = false.
Proof.
  unfold update_locations.
  destruct (template_eq old_location None
            && template_eq old_object_location None) eqn:E.
  - apply andb_prop in E as [E1 E2].
    destruct old_location; [discriminate E1|].
    destruct old_object_location; [discriminate E2|].
    destruct (location_from_row row _) as [new_location m1].
    destruct (object_location_from_row row m1) as [new_object_location m2].
    intros Hrun. apply bind_inr in Hrun as (add & w1 & Hadd & Hrun).
    unfold ret in Hrun. injection Hrun as <- _. cbn.
    unfold slot_flags_agree.
    destruct new_location as [t|].
    + repeat split; intros; try discriminate; eauto.
    + injection Hadd as <- _. repeat split; intros; try discriminate; eauto.
  - match goal with |- context [if ?c then _ else _] => destruct c end.
    2: { intros [= <- _]. cbn. unfold slot_flags_agree.
         repeat split; intros; discriminate. }
    intros Hrun.
    apply bind_inr in Hrun as (u & w1 & _ & Hrun).
    destruct (location_from_row row mapit) as [new_location m1].
    destruct (object_location_from_row row m1) as [new_object_location m2].
    apply bind_inr in Hrun as (sc & w2 & _ & Hrun).
    apply bind_inr in Hrun as (so & w3 & _ & Hrun).
    apply bind_inr in Hrun as (st & w4 & _ & Hrun).
    apply bind_inr in Hrun as (u1 & w5 & _ & Hrun).
    apply bind_inr in Hrun as (u2 & w6 & _ & Hrun).
    apply bind_inr in Hrun as (suppress & w7 & _ & Hrun).
    apply bind_inr in Hrun as (u3 & w8 & _ & Hrun).
    destruct (write_slot set_location _ _ _ _ _ _ _)
      as [[t1 mm1] [[a1 r1] d1]] eqn:W1.
    destruct (write_slot set_object_location _ _ _ _ _ _ _)
      as [[t2 mm2] [[a2 r2] d2]] eqn:W2.
    unfold ret in Hrun. injection Hrun as <- _. cbn.
    apply write_slot_agrees in W1. apply write_slot_agrees in W2.
    split; [exact W1|].
    destruct W2 as (Wa & Wr & Wd).
    split; [intros Ha; destruct (Wa Ha) as (? & ? & ? & ?); auto|].
    split; [exact Wr|]. split; [exact Wd | reflexivity].
Qed.

(** X8. On a page with no geocoding the location part of the summary
    announces an added object location in every case, and an added camera
    location when one was added, also when the row yielded no object
    location. *)
Theorem no_geocoding_summary row tree mapit w l w' :
  update_locations row tree mapit None None w = (inr l, w') ->
  location_summary (l_flags l) row None (l_new_location l) None
                   (l_new_object_location l)
    = if location_added (l_flags l)
      then "Add camera and object locations from Geograph ("
             +:+ format_row row +:+ ")"
      else "Add object location from Geograph (" +:+ format_row row +:+ ")".
Proof.
  unfold update_locations. cbn [template_eq andb].
  destruct (location_from_row row _) as [new_location m1].
  destruct (object_location_from_row row m1) as [new_object_location m2].
  intros Hrun. apply bind_inr in Hrun as (add & w1 & _ & Hrun).
  unfold ret in Hrun. injection Hrun as <- _.
  unfold location_summary. cbn. destruct add; reflexivity.
Qed.

(** X9. When the text cannot take the credit line, the credit-line step
    does not ask the wiki for the oldest revision and does not read the
    update timestamp: the tree and the page object stay as they are and one
    line is logged. *)
Theorem present_creditline_makes_no_request row tree w :
  can_add_creditline tree (creditline_from_row row) = false ->
  update_creditline row tree w
    = (inr (tree, false),
       mkWorld (page w) (journal w ++ [(VERBOSE, "Cannot add credit line")])
               (saved w)).
Proof.
  intros Hc. unfold update_creditline. unfold bind at 1. rewrite Hc.
  reflexivity.
Qed.

(** X10. When the text can take the credit line and the update timestamp of
    the row does not parse, the credit-line step raises a [ValueError], which
    [treat_page] has no clause for; nothing is logged or saved by the
    step. *)
Theorem unparsable_timestamp_is_not_handled row tree w :
  can_add_creditline tree (creditline_from_row row) = true ->
  strptime (upd_timestamp row) = None ->
  exists e w',
    update_creditline row tree w = (inl e, w')
    /\ exn_class e = ValueError /\ handled e = false
    /\ journal w' = journal w /\ saved w' = saved w.
Proof.
  intros Hc Hs. unfold update_creditline. unfold bind at 1. rewrite Hc.
  unfold unmodified_on_geograph_since_upload, bind, request.
  destruct (oldest_revision_timestamp (page w)) as [c p]. rewrite Hs.
  cbn [raise]. do 2 eexists. repeat split.
Qed.

Lemma location_summary_empty_iff f row ol nl oo no :
  location_summary f row ol nl oo no = EmptyString <->
  location_added f = false /\ location_replaced f = false
  /\ location_removed f = false /\ object_location_added f = false
  /\ object_location_replaced f = false
  /\ object_location_removed f = false.
Proof.
  unfold location_summary.
  destruct (location_added f), (location_replaced f), (location_removed f),
    (object_location_added f), (object_location_replaced f),
    (object_location_removed f);
    (split; [intros E; try discriminate E; repeat split
            | intros (? & ? & ? & ? & ? & ?); try discriminate; reflexivity]).
Qed.

(** X11. The edit summary is empty exactly when none of the seven flags is
    set and the MapIt service was not used. *)
Theorem summary_is_empty_only_without_decision d :
  edit_summary d = EmptyString <->
  d_flags d = no_flags /\ used (d_mapit d) = false.
Proof.
  unfold edit_summary, mapit_clause, creditline_clause.
  pose proof (location_summary_empty_iff (d_flags d) (d_row d)
    (d_old_location d) (d_new_location d) (d_old_object_location d)
    (d_new_object_location d)) as Hb.
  destruct (location_summary _ _ _ _ _ _) as [|c0 base].
  - destruct (proj1 Hb eq_refl) as (Ha & Hr & Hm & Hoa & Hor & Hom).
    destruct (d_flags d) as [a b c a' b' c' cl]. cbn in *. subst.
    destruct cl, (used (d_mapit d)); cbn;
      (split; [intros E; try discriminate E; split; reflexivity
              | intros [E1 E2]; try discriminate E1; try discriminate E2;
                reflexivity]).
  - split.
    + intros E. exfalso.
      destruct (creditline_added (d_flags d)), (used (d_mapit d));
        cbn in E; discriminate E.
    + intros [E _]. rewrite E in Hb. cbn in Hb.
      assert (Hn : String c0 base = EmptyString) by (apply Hb; repeat split).
      discriminate Hn.
Qed.

(** X12. [has_sdc_geocoding] writes neither log nor commit.  When the wiki
    answers with an entity of the page's media id, it returns [True] exactly
    when the entity has a [statements] entry that holds [P625] or [P1259],
    and [False] for an entity with no such entry; when the answer holds no
    entity of that id it raises [KeyError]; when the request fails, its
    exception is the exception of [has_sdc_geocoding]. *)
Theorem has_sdc_geocoding_looks_for_two_properties w :
  let mediaid := "M" +:+ pretty (pageid (page w)) in
  let answer := fst (wbgetentities mediaid (page w)) in
  journal (snd (has_sdc_geocoding w)) = journal w
  /\ saved (snd (has_sdc_geocoding w)) = saved w
  /\ (forall entities entity,
        answer = inr (Some entities) ->
        entities !! mediaid = Some entity ->
        exists b,
          fst (has_sdc_geocoding w) = inr b
          /\ (b = true <->
              exists statements,
                entity = Some statements
                /\ (has_key statements "P625" = true
                    \/ has_key statements "P1259" = true)))
  /\ (forall entities,
        answer = inr (Some entities) ->
        entities !! mediaid = None ->
        fst (has_sdc_geocoding w)
          = inl (mkExn KeyError ("'" +:+ mediaid +:+ "'")))
  /\ (forall e, answer = inl e -> fst (has_sdc_geocoding w) = inl e).
Proof.
  cbn zeta.
  unfold has_sdc_geocoding, get_sdc_statements, bind, get_page, submit.
  destruct (wbgetentities _ (page w)) as [data p]. cbn [fst].
  split; [| split; [| split; [| split]]].
  - destruct data as [e|[entities|]]; [reflexivity | | reflexivity].
    cbn [ret]. destruct (entities !! _) as [entity|]; reflexivity.
  - destruct data as [e|[entities|]]; [reflexivity | | reflexivity].
    cbn [ret]. destruct (entities !! _) as [entity|]; reflexivity.
  - intros entities entity -> He. cbn [ret]. rewrite He. cbn [ret fst].
    eexists. split; [reflexivity|].
    destruct entity as [m|].
    + change (default ∅ (Some m)) with m. split.
      * intros E. exists m. split; [reflexivity|].
        apply orb_true_iff in E. exact E.
      * intros (m' & [= <-] & E). apply orb_true_iff. exact E.
    + change (default (∅ : gmap string (list Statement)) None)
        with (∅ : gmap string (list Statement)).
      split.
      * unfold has_key. rewrite !lookup_empty. discriminate.
      * intros (m' & E & _). discriminate E.
  - intros entities -> He. cbn [ret]. rewrite He. reflexivity.
  - intros e ->. reflexivity.
Qed.

End Steps.

(** ** More on the page and on the exception boundary *)

Section Boundary.

Context `{Collaborators}.

(** X13. A location template that is absent from the page (the reader
    raises [IndexError]) makes an empty slot, and a template that is there
    is the old location of its slot. *)
Theorem absent_template_is_an_empty_slot w d w1 :
  snapshot_and_decide w = (inr d, w1) ->
  let tree := parse (text (page w)) in
  d_old_location d
    = match get_location tree with inr t => Some t | inl _ => None end
  /\ d_old_object_location d
    = match get_object_location tree with
      | inr t => Some t
      | inl _ => None
      end.
Proof.
  intros Hrun. cbn zeta. unfold snapshot_and_decide in Hrun.
  apply bind_inr in Hrun as (p & w2 & Hp & Hrun).
  unfold get_page in Hp. injection Hp as <- <-.
  apply bind_inr in Hrun as (p1 & w3 & Hp & Hrun).
  unfold get_page in Hp. injection Hp as <- <-.
  apply bind_inr in Hrun as (id & w4 & _ & Hrun).
  apply bind_inr in Hrun as (found & w4' & _ & Hrun).
  apply bind_inr in Hrun as (row & w5 & _ & Hrun).
  apply bind_inr in Hrun as (old_location & w6 & Hcam & Hrun).
  apply bind_inr in Hrun as (old_object_location & w7 & Hobj & Hrun).
  apply bind_inr in Hrun as (u1 & w8 & _ & Hrun).
  apply bind_inr in Hrun as (u2 & w9 & _ & Hrun).
  apply bind_inr in Hrun as (l & w10 & _ & Hrun).
  apply bind_inr in Hrun as ([tree added] & w11 & _ & Hrun).
  unfold ret in Hrun. injection Hrun as <- _.
  cbn [d_old_location d_old_object_location].
  split.
  - clear Hobj. unfold try_except, bind in Hcam.
    destruct (get_location (parse (text (page w)))) as [e|t];
      cbn [lift raise ret] in Hcam.
    + destruct (isinstance e IndexError); cbn [ret raise] in Hcam.
      * injection Hcam as <- _. reflexivity.
      * discriminate.
    + injection Hcam as <- _. reflexivity.
  - clear Hcam. unfold try_except, bind in Hobj.
    destruct (get_object_location (parse (text (page w)))) as [e|t];
      cbn [lift raise ret] in Hobj.
    + destruct (isinstance e IndexError); cbn [ret raise] in Hobj.
      * injection Hobj as <- _. reflexivity.
      * discriminate.
    + injection Hobj as <- _. reflexivity.
Qed.

(** X14. A page whose image is not in the database is skipped: [treat_page]
    returns normally, the page object and the commits are as they were, and
    one warning names the image. *)
Theorem image_not_in_database_is_skipped depth w id :
  get_gridimage_id (parse (text (page w))) = inr id ->
  fetchone id = inr None ->
  treat_page (S depth) w
    = (inr tt,
       mkWorld (page w)
         (journal w
            ++ [(WARNING,
                 "Geograph ID " +:+ pretty id +:+ " not in database")])
         (saved w)).
Proof.
  intros Hid Hrow. unfold treat_page, try_except.
  cbn [process_page]. unfold snapshot_and_decide.
  unfold bind at 1. unfold bind at 1. cbn [get_page].
  unfold bind at 1. cbn [get_page].
  unfold bind at 1. unfold try_except at 1. rewrite Hid. cbn [lift ret].
  unfold bind at 1. rewrite Hrow. cbn [lift ret].
  unfold bind at 1. cbn [raise].
  reflexivity.
Qed.

(** X15. A page whose image id cannot be read ([ValueError] or
    [IndexError] from [get_gridimage_id]) is skipped as a [BadTemplate]:
    [treat_page] returns normally with one warning that carries the message
    of the exception, and nothing else changes. *)
Theorem unreadable_image_id_is_skipped depth w e :
  get_gridimage_id (parse (text (page w))) = inl e ->
  isinstance e ValueError || isinstance e IndexError = true ->
  treat_page (S depth) w
    = (inr tt,
       mkWorld (page w) (journal w ++ [(WARNING, exn_msg e)]) (saved w)).
Proof.
  intros Hid Hc. unfold treat_page, try_except.
  cbn [process_page]. unfold snapshot_and_decide.
  unfold bind at 1. unfold bind at 1. cbn [get_page].
  unfold bind at 1. cbn [get_page].
  unfold bind at 1. unfold try_except at 1. rewrite Hid. cbn [lift raise].
  destruct (isinstance e ValueError); [reflexivity|].
  cbn [orb] in Hc. rewrite Hc. reflexivity.
Qed.

(** X16. An exception of the camera reader that is not an [IndexError]
    leaves [process_page] as it is, before anything is logged; when it is a
    [TooManyTemplates], [treat_page] reports it as an error and returns. *)
Theorem too_many_templates_is_reported depth w id row e :
  get_gridimage_id (parse (text (page w))) = inr id ->
  fetchone id = inr (Some row) ->
  get_location (parse (text (page w))) = inl e ->
  isinstance e IndexError = false ->
  process_page (S depth) w = (inl e, w)
  /\ (exn_class e = TooManyTemplates ->
      treat_page (S depth) w
        = (inr tt,
           mkWorld (page w) (journal w ++ [(ERROR, exn_msg e)]) (saved w))).
Proof.
  intros Hid Hrow Hcam Hi.
  assert (Hp : process_page (S depth) w = (inl e, w)).
  { cbn [process_page]. unfold snapshot_and_decide.
    unfold bind at 1. unfold bind at 1. cbn [get_page].
    unfold bind at 1. cbn [get_page].
    unfold bind at 1. unfold try_except at 1. rewrite Hid. cbn [lift ret].
    unfold bind at 1. rewrite Hrow. cbn [lift ret].
    unfold bind at 1. cbn [ret].
    unfold bind at 1. unfold try_except at 1. unfold bind at 1.
    rewrite Hcam. cbn [lift raise]. rewrite Hi. reflexivity. }
  split; [exact Hp|].
  intros Hc. unfold treat_page, try_except. rewrite Hp.
  destruct e as [c m]. cbn in Hc. subst c. reflexivity.
Qed.

(** X17. No exception of the four classes that [treat_page] names ever
    leaves [treat_page]. *)
Theorem treat_page_raises_no_handled_exception depth w :
  match fst (treat_page depth w) with
  | inl e => handled e = false
  | inr _ => True
  end.
Proof.
  unfold treat_page, try_except.
  destruct (process_page depth w) as [[e|u] w1]; [| exact I].
  destruct (isinstance e NotEligible) eqn:E1; [exact I|].
  destruct (isinstance e MinorProblem) eqn:E2; [exact I|].
  destruct (isinstance e MajorProblem) eqn:E3; [exact I|].
  destruct (isinstance e TooManyTemplates) eqn:E4; [exact I|].
  cbn [raise fst]. unfold handled. rewrite E1, E2, E3, E4. reflexivity.
Qed.

Lemma process_page_S depth w :
  process_page (S depth) w =
    (do d <- snapshot_and_decide;
     let newtext := str_tree (d_tree d) in
     do p <- get_page;
     if negb (String.eqb newtext (text p)) then
       let summary := edit_summary d in
       do _ <- log ("edit summary: " +:+ summary);
       do p <- get_page;
       if negb (Z.eqb (latest_revision_id p) (d_revid d)) then
         do _ <- log ("page has changed ("
                        +:+ pretty (latest_revision_id p) +:+ " != "
                        +:+ pretty (d_revid d) +:+ "): restarting edit");
         process_page depth
       else
         do _ <- set_text newtext;
         save summary (d_minor d)
     else ret tt) w.
Proof. reflexivity. Qed.

(** X18. When the text has changed and the revision identifier has not,
    [process_page] assigns the new text to the page object and asks the wiki
    to save it as a non-minor edit with the edit summary, which it logs.
    When the wiki takes the edit, one commit is recorded, the page object is
    at the new revision and [process_page] returns; when the wiki refuses it,
    the exception of the refusal leaves [process_page], no commit is recorded
    and the page object keeps the assigned text. *)
Theorem validated_edit_is_committed depth w d w1 :
  snapshot_and_decide w = (inr d, w1) ->
  str_tree (d_tree d) <> text (page w1) ->
  latest_revision_id (page w1) = d_revid d ->
  let newtext := str_tree (d_tree d) in
  let sent := mkPage (pageid (page w1)) newtext (d_revid d) in
  let logged :=
    (journal w1 ++ [(VERBOSE, "edit summary: " +:+ edit_summary d)])%list in
  (forall newrevid,
     save_page sent (edit_summary d) false = inr newrevid ->
     process_page (S depth) w
       = (inr tt,
          mkWorld (mkPage (pageid (page w1)) newtext newrevid) logged
            (saved w ++ [mkCommit newtext (edit_summary d) false])))
  /\ (forall e,
        save_page sent (edit_summary d) false = inl e ->
        process_page (S depth) w = (inl e, mkWorld sent logged (saved w))).
Proof.
  intros Hd Ht Hr newtext sent logged.
  pose proof (validated_attempt depth w d w1 Hd Ht Hr) as V.
  fold newtext sent logged in V.
  split.
  - intros newrevid Hs. rewrite Hs in V. exact V.
  - intros e Hs. rewrite Hs in V. exact V.
Qed.

(** X19. One call of [process_page], restarts included, makes at most one
    commit; the commit is never minor, its text is the text of the page
    object when [process_page] returns, and [process_page] then returns
    normally. *)
Theorem at_most_one_commit depth : forall w,
  let w' := snd (process_page depth w) in
  saved w' = saved w
  \/ exists c,
       saved w' = (saved w ++ [c])%list
       /\ commit_minor c = false
       /\ commit_text c = text (page w')
       /\ fst (process_page depth w) = inr tt.
Proof.
  induction depth as [|depth IH]; intros w; cbn zeta.
  - left. reflexivity.
  - pose proof (keeps_saved_snapshot_and_decide w) as K.
    destruct (snapshot_and_decide w) as [[e|d] w1] eqn:Hd; cbn [snd] in K.
    + left. rewrite process_page_S, (bind_err _ _ _ _ _ Hd). exact K.
    + destruct (String.eqb_spec (str_tree (d_tree d)) (text (page w1)))
        as [Ht|Ht].
      * left. exact (page_unchanged_is_not_saved depth w d w1 Hd Ht).
      * destruct (Z.eq_dec (latest_revision_id (page w1)) (d_revid d))
          as [Hr|Hr].
        -- rewrite (validated_attempt depth w d w1 Hd Ht Hr).
           destruct (save_page _ _ _) as [e|newrevid]; [left; reflexivity|].
           right. eexists. cbn. repeat split.
        -- destruct (restart_on_drift depth w d w1 Hd Ht Hr)
             as (w2 & Hp & Hs & ->).
           specialize (IH w2). cbn zeta in IH. rewrite Hs in IH. exact IH.
Qed.

(** X20. A result that [process_page] reaches within some depth is its
    result at every greater depth: unless it ends in the [RecursionError] of
    the depth bound, one more level changes neither the outcome nor the
    world. *)
Theorem deeper_recursion_same_result depth : forall w r w',
  process_page depth w = (r, w') ->
  r <> inl recursion_limit ->
  process_page (S depth) w = (r, w').
Proof.
  induction depth as [|depth IH]; intros w r w' Hrun Hne.
  - cbn in Hrun. unfold raise in Hrun. injection Hrun as <- <-.
    exfalso. apply Hne. reflexivity.
  - rewrite process_page_S. rewrite process_page_S in Hrun.
    unfold bind at 1. unfold bind at 1 in Hrun.
    destruct (snapshot_and_decide w) as [[e|d] w1]; [exact Hrun|].
    unfold bind at 1. unfold bind at 1 in Hrun. cbn [get_page] in *.
    destruct (negb (String.eqb (str_tree (d_tree d)) (text (page w1))));
      [| exact Hrun].
    unfold bind at 1. unfold bind at 1 in Hrun. cbn [log emit] in *.
    unfold bind at 1. unfold bind at 1 in Hrun. cbn [get_page page] in *.
    destruct (negb (Z.eqb (latest_revision_id (page w1)) (d_revid d)));
      [| exact Hrun].
    unfold bind at 1. unfold bind at 1 in Hrun. cbn [log emit] in *.
    apply IH; assumption.
Qed.

End Boundary.

(** ** The further properties on the small wiki *)

(** The same grid square, a slightly different position. *)
Lemma unchanged_source_is_not_updated_witness :
  @location_params Demo.plain (Some Demo.camera_gridref) !! "source"
    = Some "geograph-osgb36(TQ3080)"
  /\ @location_params Demo.plain (Some More.camera_refined) !! "source"
    = Some "geograph-osgb36(TQ3080)"
  /\ fst (@should_set_location Demo.plain (Some Demo.camera_gridref)
            (Some More.camera_refined) "camera"
            (Demo.world Demo.page123_located)) = inr false.
Proof.
  assert (H1 : @location_params Demo.plain (Some Demo.camera_gridref)
                 !! "source" = Some "geograph-osgb36(TQ3080)")
    by (vm_compute; reflexivity).
  assert (H2 : @location_params Demo.plain (Some More.camera_refined)
                 !! "source" = Some "geograph-osgb36(TQ3080)")
    by (vm_compute; reflexivity).
  split; [exact H1|]. split; [exact H2|].
  pose proof (@unchanged_source_is_not_updated Demo.plain
                Demo.camera_gridref More.camera_refined "camera"
                (Demo.world Demo.page123_located) _ H1 H2) as U.
  destruct (fst (@should_set_location Demo.plain (Some Demo.camera_gridref)
                   (Some More.camera_refined) "camera"
                   (Demo.world Demo.page123_located))) as [e|b] eqn:E.
  - vm_compute in E. discriminate E.
  - rewrite U. reflexivity.
Defined.

(** A template with a fourth parameter against a candidate with a grid
    reference. *)
Lemma dms_without_gridref_is_left_alone_witness :
  @location_params Demo.plain (Some More.camera_four) !! "source"
    = Some "geograph"
  /\ Py.contains "-" "geograph" = false
  /\ template_has More.camera_four "4" = true
  /\ @location_params Demo.plain (Some Demo.camera_new) !! "source"
    = Some "geograph-osgb36(TQ30168034)"
  /\ fst (@should_set_location Demo.plain (Some More.camera_four)
            (Some Demo.camera_new) "camera" (Demo.world Demo.page123))
     = inr false.
Proof.
  assert (H1 : @location_params Demo.plain (Some More.camera_four)
                 !! "source" = Some "geograph") by (vm_compute; reflexivity).
  assert (H2 : Py.contains "-" "geograph" = false) by reflexivity.
  assert (H3 : template_has More.camera_four "4" = true) by reflexivity.
  assert (H4 : @location_params Demo.plain (Some Demo.camera_new)
                 !! "source" = Some "geograph-osgb36(TQ30168034)")
    by (vm_compute; reflexivity).
  repeat (split; [assumption|]).
  exact (@dms_without_gridref_is_left_alone Demo.plain _ _ "camera"
           (Demo.world Demo.page123) _ _ H1 H2 H3 H4).
Defined.

(** From one grid square to the next. *)
Lemma gridref_with_new_source_is_updated_witness :
  template_eq (Some Demo.camera_gridref) (Some Demo.camera_moved) = false
  /\ @location_params Demo.plain (Some Demo.camera_gridref) !! "source"
    = Some "geograph-osgb36(TQ3080)"
  /\ Py.contains "-" "geograph-osgb36(TQ3080)" = true
  /\ @location_params Demo.plain (Some Demo.camera_moved) !! "source"
    = Some "geograph-osgb36(TQ3081)"
  /\ "geograph-osgb36(TQ3080)" <> "geograph-osgb36(TQ3081)"
  /\ @should_set_location Demo.plain (Some Demo.camera_gridref)
       (Some Demo.camera_moved) "camera" (Demo.world Demo.page123_located)
     = (inr true, Demo.world Demo.page123_located).
Proof.
  assert (H1 : template_eq (Some Demo.camera_gridref)
                 (Some Demo.camera_moved) = false) by reflexivity.
  assert (H2 : @location_params Demo.plain (Some Demo.camera_gridref)
                 !! "source" = Some "geograph-osgb36(TQ3080)")
    by (vm_compute; reflexivity).
  assert (H3 : Py.contains "-" "geograph-osgb36(TQ3080)" = true)
    by reflexivity.
  assert (H4 : @location_params Demo.plain (Some Demo.camera_moved)
                 !! "source" = Some "geograph-osgb36(TQ3081)")
    by (vm_compute; reflexivity).
  assert (H5 : "geograph-osgb36(TQ3080)" <> "geograph-osgb36(TQ3081)")
    by (apply String.eqb_neq; reflexivity).
  repeat (split; [assumption|]).
  exact (@gridref_with_new_source_is_updated Demo.plain _ _ "camera"
           (Demo.world Demo.page123_located) _ _ H1 H2 H3 H4 H5).
Defined.

(** 200 m away with a precision of 100 m. *)
Lemma move_beyond_precision_is_updated_witness :
  template_eq (Some Demo.camera_1km) (Some Demo.camera_new) = false
  /\ @location_params Demo.plain (Some Demo.camera_1km) !! "source"
    = Some "geograph"
  /\ Py.contains "-" "geograph" = false
  /\ template_has Demo.camera_1km "4" = false
  /\ prec_of Demo.camera_new = Some 100
  /\ (inject_Z 100
      <= snd (@az_dist_between_locations Demo.plain (Some Demo.camera_1km)
                (Some Demo.camera_new)))%Q
  /\ @location_params Demo.plain (Some Demo.camera_new) !! "source"
    = Some "geograph-osgb36(TQ30168034)"
  /\ "geograph" <> "geograph-osgb36(TQ30168034)"
  /\ @should_set_location Demo.plain (Some Demo.camera_1km)
       (Some Demo.camera_new) "camera" (Demo.world Demo.page123)
     = (inr true, Demo.world Demo.page123).
Proof.
  assert (H1 : template_eq (Some Demo.camera_1km) (Some Demo.camera_new)
               = false) by reflexivity.
  assert (H2 : @location_params Demo.plain (Some Demo.camera_1km)
                 !! "source" = Some "geograph") by (vm_compute; reflexivity).
  assert (H3 : Py.contains "-" "geograph" = false) by reflexivity.
  assert (H4 : template_has Demo.camera_1km "4" = false) by reflexivity.
  assert (H5 : prec_of Demo.camera_new = Some 100) by reflexivity.
  assert (H6 : (inject_Z 100
                <= snd (@az_dist_between_locations Demo.plain
                          (Some Demo.camera_1km) (Some Demo.camera_new)))%Q)
    by (vm_compute; discriminate).
  assert (H7 : @location_params Demo.plain (Some Demo.camera_new)
                 !! "source" = Some "geograph-osgb36(TQ30168034)")
    by (vm_compute; reflexivity).
  assert (H8 : "geograph" <> "geograph-osgb36(TQ30168034)")
    by (apply String.eqb_neq; reflexivity).
  repeat (split; [assumption|]).
  exact (@move_beyond_precision_is_updated Demo.plain _ _ "camera"
           (Demo.world Demo.page123) _ _ _ H1 H2 H3 H4 H5 H6 H7 H8).
Defined.

(** The located page 123: the camera is replaced and the object added. *)
Lemma location_flags_agree_with_slots_witness :
  @update_locations Demo.plain Demo.row123 Demo.page123_located
    (mkMapIt false false) (Some Demo.camera_gridref) None
    (Demo.world Demo.page123_located)
  = (inr More.updated, More.after_update)
  /\ slot_flags_agree false true false (Some Demo.camera_gridref)
       (Some Demo.camera_new).
Proof.
  assert (H1 : @update_locations Demo.plain Demo.row123 Demo.page123_located
                 (mkMapIt false false) (Some Demo.camera_gridref) None
                 (Demo.world Demo.page123_located)
               = (inr More.updated, More.after_update))
    by (vm_compute; reflexivity).
  split; [exact H1|].
  exact (proj1 (@location_flags_agree_with_slots Demo.plain _ _ _ _ _ _ _ _
                  H1)).
Defined.

(** Page 123 with no geocoding. *)
Lemma no_geocoding_summary_witness :
  @update_locations Demo.plain Demo.row123 Demo.page123 (mkMapIt false false)
    None None (Demo.world Demo.page123)
  = (inr More.added, Demo.world Demo.page123)
  /\ @location_summary Demo.plain (l_flags More.added) Demo.row123 None
       (Some Demo.camera_new) None (Some Demo.subject_new)
     = "Add camera and object locations from Geograph (geograph.org.uk/photo/123)".
Proof.
  assert (H1 : @update_locations Demo.plain Demo.row123 Demo.page123
                 (mkMapIt false false) None None (Demo.world Demo.page123)
               = (inr More.added, Demo.world Demo.page123))
    by (vm_compute; reflexivity).
  split; [exact H1|].
  exact (@no_geocoding_summary Demo.plain _ _ _ _ _ _ H1).
Defined.

(** Page 123 once it has its credit line. *)
Lemma present_creditline_makes_no_request_witness :
  @can_add_creditline Demo.drifting More.page123_credited
    (@creditline_from_row Demo.drifting Demo.row123) = false
  /\ @update_creditline Demo.drifting Demo.row123 More.page123_credited
       (Demo.world More.page123_credited)
     = (inr (More.page123_credited, false),
        mkWorld (page (Demo.world More.page123_credited))
                [(VERBOSE, "Cannot add credit line")] []).
Proof.
  assert (H1 : @can_add_creditline Demo.drifting More.page123_credited
                 (@creditline_from_row Demo.drifting Demo.row123) = false)
    by reflexivity.
  split; [exact H1|].
  exact (@present_creditline_makes_no_request Demo.drifting Demo.row123
           More.page123_credited (Demo.world More.page123_credited) H1).
Defined.

(** A row updated last Tuesday. *)
Lemma unparsable_timestamp_is_not_handled_witness :
  @can_add_creditline Demo.plain Demo.page124
    (@creditline_from_row Demo.plain More.row125) = true
  /\ @strptime Demo.plain (@upd_timestamp Demo.plain More.row125) = None
  /\ exists e w',
       @update_creditline Demo.plain More.row125 Demo.page124
         (Demo.world Demo.page124) = (inl e, w')
       /\ exn_class e = ValueError /\ handled e = false
       /\ journal w' = journal (Demo.world Demo.page124)
       /\ saved w' = saved (Demo.world Demo.page124).
Proof.
  assert (H1 : @can_add_creditline Demo.plain Demo.page124
                 (@creditline_from_row Demo.plain More.row125) = true)
    by reflexivity.
  assert (H2 : @strptime Demo.plain (@upd_timestamp Demo.plain More.row125)
               = None) by reflexivity.
  split; [exact H1|]. split; [exact H2|].
  exact (@unparsable_timestamp_is_not_handled Demo.plain More.row125
           Demo.page124 (Demo.world Demo.page124) H1 H2).
Defined.

(** An attempt with no flag and no use of MapIt. *)
Lemma summary_is_empty_only_without_decision_witness :
  (d_flags More.undecided = no_flags /\ used (d_mapit More.undecided) = false)
  /\ @edit_summary Demo.plain More.undecided = EmptyString.
Proof.
  assert (H1 : d_flags More.undecided = no_flags
               /\ used (d_mapit More.undecided) = false)
    by (split; reflexivity).
  split; [exact H1|].
  exact (proj2 (@summary_is_empty_only_without_decision Demo.plain
                  More.undecided) H1).
Defined.

(** The overlay of page 1 holds a coordinate statement. *)
Lemma has_sdc_geocoding_looks_for_two_properties_witness :
  fst (@wbgetentities Demo.geocoded "M1" (page (Demo.world Demo.page123)))
    = inr (Some {[ "M1" := Demo.geocoded_overlay ]})
  /\ ({[ "M1" := Demo.geocoded_overlay ]}
        : gmap string (option (gmap string (list string)))) !! "M1"
     = Some Demo.geocoded_overlay
  /\ exists b,
       fst (@has_sdc_geocoding Demo.geocoded (Demo.world Demo.page123))
         = inr b
       /\ (b = true <->
           exists statements,
             Demo.geocoded_overlay = Some statements
             /\ (has_key statements "P625" = true
                 \/ has_key statements "P1259" = true)).
Proof.
  assert (H1 : fst (@wbgetentities Demo.geocoded "M1"
                      (page (Demo.world Demo.page123)))
               = inr (Some {[ "M1" := Demo.geocoded_overlay ]}))
    by reflexivity.
  assert (H2 : ({[ "M1" := Demo.geocoded_overlay ]}
                  : gmap string (option (gmap string (list string))))
                 !! "M1" = Some Demo.geocoded_overlay)
    by (vm_compute; reflexivity).
  split; [exact H1|]. split; [exact H2|].
  destruct (@has_sdc_geocoding_looks_for_two_properties Demo.geocoded
              (Demo.world Demo.page123)) as (_ & _ & A & _).
  exact (A _ _ H1 H2).
Defined.

(** Page 124 has neither template. *)
Lemma absent_template_is_an_empty_slot_witness :
  @snapshot_and_decide Demo.plain (Demo.world Demo.page124)
    = (inr Demo.decided124, Demo.after124)
  /\ d_old_location Demo.decided124 = None
  /\ d_old_object_location Demo.decided124 = None.
Proof.
  assert (H1 : @snapshot_and_decide Demo.plain (Demo.world Demo.page124)
               = (inr Demo.decided124, Demo.after124))
    by (vm_compute; reflexivity).
  split; [exact H1|].
  exact (@absent_template_is_an_empty_slot Demo.plain _ _ _ H1).
Defined.

(** Image 999 is not in the database. *)
Lemma image_not_in_database_is_skipped_witness :
  @get_gridimage_id More.unknown_image
    (@parse More.unknown_image (text (page (Demo.world More.page999))))
    = inr 999
  /\ @fetchone More.unknown_image 999 = inr None
  /\ @treat_page More.unknown_image 1 (Demo.world More.page999)
     = (inr tt,
        mkWorld (page (Demo.world More.page999))
          [(WARNING, "Geograph ID 999 not in database")] []).
Proof.
  assert (H1 : @get_gridimage_id More.unknown_image
                 (@parse More.unknown_image
                    (text (page (Demo.world More.page999)))) = inr 999)
    by (vm_compute; reflexivity).
  assert (H2 : @fetchone More.unknown_image 999 = inr None) by reflexivity.
  split; [exact H1|]. split; [exact H2|].
  exact (@image_not_in_database_is_skipped More.unknown_image 0
           (Demo.world More.page999) 999 H1 H2).
Defined.

(** A page with no Geograph template. *)
Lemma unreadable_image_id_is_skipped_witness :
  @get_gridimage_id Demo.plain
    (@parse Demo.plain
       (text (page (Demo.world [Demo.Text "no template here"]))))
    = inl (mkExn IndexError "list index out of range")
  /\ isinstance (mkExn IndexError "list index out of range") ValueError
     || isinstance (mkExn IndexError "list index out of range") IndexError
     = true
  /\ @treat_page Demo.plain 1 (Demo.world [Demo.Text "no template here"])
     = (inr tt,
        mkWorld (page (Demo.world [Demo.Text "no template here"]))
          [(WARNING, "list index out of range")] []).
Proof.
  assert (H1 : @get_gridimage_id Demo.plain
                 (@parse Demo.plain
                    (text (page (Demo.world [Demo.Text "no template here"]))))
               = inl (mkExn IndexError "list index out of range"))
    by (vm_compute; reflexivity).
  assert (H2 : isinstance (mkExn IndexError "list index out of range")
                 ValueError
               || isinstance (mkExn IndexError "list index out of range")
                    IndexError = true) by reflexivity.
  split; [exact H1|]. split; [exact H2|].
  exact (@unreadable_image_id_is_skipped Demo.plain 0
           (Demo.world [Demo.Text "no template here"]) _ H1 H2).
Defined.

(** A page on which the camera reader finds two templates. *)
Lemma too_many_templates_is_reported_witness :
  @get_gridimage_id More.crowded
    (@parse More.crowded (text (page (Demo.world Demo.page123)))) = inr 123
  /\ @fetchone More.crowded 123 = inr (Some Demo.row123)
  /\ @get_location More.crowded
       (@parse More.crowded (text (page (Demo.world Demo.page123))))
     = inl More.two_cameras
  /\ isinstance More.two_cameras IndexError = false
  /\ @process_page More.crowded 1 (Demo.world Demo.page123)
     = (inl More.two_cameras, Demo.world Demo.page123)
  /\ @treat_page More.crowded 1 (Demo.world Demo.page123)
     = (inr tt,
        mkWorld (page (Demo.world Demo.page123))
          [(ERROR, "2 Location templates")] []).
Proof.
  assert (H1 : @get_gridimage_id More.crowded
                 (@parse More.crowded (text (page (Demo.world Demo.page123))))
               = inr 123) by (vm_compute; reflexivity).
  assert (H2 : @fetchone More.crowded 123 = inr (Some Demo.row123))
    by reflexivity.
  assert (H3 : @get_location More.crowded
                 (@parse More.crowded (text (page (Demo.world Demo.page123))))
               = inl More.two_cameras) by reflexivity.
  assert (H4 : isinstance More.two_cameras IndexError = false) by reflexivity.
  repeat (split; [assumption|]).
  destruct (@too_many_templates_is_reported More.crowded 0
              (Demo.world Demo.page123) 123 Demo.row123 More.two_cameras
              H1 H2 H3 H4) as [P T].
  split; [exact P | exact (T eq_refl)].
Defined.

(** Page 123 on the wiki with no overlay and no drift. *)
Lemma validated_edit_is_committed_witness :
  @snapshot_and_decide Demo.plain (Demo.world Demo.page123)
    = (inr More.decided, More.after_decision)
  /\ @str_tree Demo.plain (d_tree More.decided)
     <> text (page More.after_decision)
  /\ latest_revision_id (page More.after_decision) = d_revid More.decided
  /\ @save_page Demo.plain
       (mkPage 1 (@str_tree Demo.plain (d_tree More.decided)) 10)
       (@edit_summary Demo.plain More.decided) false = inr 11
  /\ @process_page Demo.plain 1 (Demo.world Demo.page123)
     = (inr tt, More.committed).
Proof.
  assert (H1 : @snapshot_and_decide Demo.plain (Demo.world Demo.page123)
               = (inr More.decided, More.after_decision))
    by (vm_compute; reflexivity).
  assert (H2 : @str_tree Demo.plain (d_tree More.decided)
               <> text (page More.after_decision)).
  { apply String.eqb_neq. vm_compute. reflexivity. }
  assert (H3 : latest_revision_id (page More.after_decision)
               = d_revid More.decided) by reflexivity.
  assert (H4 : @save_page Demo.plain
                 (mkPage 1 (@str_tree Demo.plain (d_tree More.decided)) 10)
                 (@edit_summary Demo.plain More.decided) false = inr 11)
    by reflexivity.
  repeat (split; [assumption|]).
  exact (proj1 (@validated_edit_is_committed Demo.plain 0 _ _ _ H1 H2 H3)
           11 H4).
Defined.

(** The commit of page 123 at depth 1 is the result at depth 2. *)
Lemma deeper_recursion_same_result_witness :
  @process_page Demo.plain 1 (Demo.world Demo.page123)
    = (inr tt, More.committed)
  /\ (inr tt : exn + unit) <> inl recursion_limit
  /\ @process_page Demo.plain 2 (Demo.world Demo.page123)
     = (inr tt, More.committed).
Proof.
  assert (H1 : @process_page Demo.plain 1 (Demo.world Demo.page123)
               = (inr tt, More.committed)) by (vm_compute; reflexivity).
  assert (H2 : (inr tt : exn + unit) <> inl recursion_limit)
    by discriminate.
  split; [exact H1|]. split; [exact H2|].
  exact (@deeper_recursion_same_result Demo.plain 1 _ _ _ H1 H2).
Defined.

(** On the protected wiki the edit of page 123 is refused: the exception
    leaves [treat_page], nothing is recorded, and the page object holds the
    text that was not saved. *)
Example refused_edit_is_not_recorded :
  @treat_page More.protected 1 (Demo.world Demo.page123)
    = (inl More.locked,
       mkWorld (mkPage 1 (@str_tree Demo.plain (d_tree More.decided)) 10)
               (journal More.committed) []).
Proof. vm_compute. reflexivity. Qed.

(** ** The exceptions of [process_page] *)

Lemma raises_only_ret P {A} (x : A) : raises_only P (ret x).
Proof. intros w e w' E. discriminate E. Qed.

Lemma raises_only_raise P {A} e : P e -> raises_only P (@raise A e).
Proof. intros He w e' w' [= <- _]. exact He. Qed.

Lemma raises_only_emit P l msg : raises_only P (emit l msg).
Proof. intros w e w' E. discriminate E. Qed.

Lemma raises_only_get_page P : raises_only P get_page.
Proof. intros w e w' E. discriminate E. Qed.

Lemma raises_only_request P {A} (f : Page -> A * Page) :
  raises_only P (request f).
Proof.
  intros w e w'. unfold request. destruct (f (page w)). discriminate.
Qed.

Lemma raises_only_submit P {A} (f : Page -> (exn + A) * Page) :
  (forall p e, fst (f p) = inl e -> P e) -> raises_only P (submit f).
Proof.
  intros Hf w e w'. unfold submit. specialize (Hf (page w)).
  destruct (f (page w)) as [r p]. intros [= -> _]. apply Hf. reflexivity.
Qed.

Lemma raises_only_lift P {A} (r : exn + A) :
  (forall e, r = inl e -> P e) -> raises_only P (lift r).
Proof.
  intros Hr w e w'. destruct r as [e0|a]; cbn.
  - intros [= <- _]. apply Hr. reflexivity.
  - discriminate.
Qed.

Lemma raises_only_bind P {A B} (m : M A) (f : A -> M B) :
  raises_only P m -> (forall a, raises_only P (f a)) ->
  raises_only P (bind m f).
Proof.
  intros Hm Hf w e w'. unfold bind.
  destruct (m w) as [[e0|a] w1] eqn:E.
  - intros [= <- _]. exact (Hm _ _ _ E).
  - intros E2. exact (Hf a _ _ _ E2).
Qed.

Lemma raises_only_try_except P {A} (m : M A) (h : exn -> M A) :
  raises_only P m -> (forall e, P e -> raises_only P (h e)) ->
  raises_only P (try_except m h).
Proof.
  intros Hm Hh w e w'. unfold try_except.
  destruct (m w) as [[e0|a] w1] eqn:E.
  - intros E2. exact (Hh e0 (Hm _ _ _ E) _ _ _ E2).
  - discriminate.
Qed.

Lemma raises_only_for_each P {A} (l : list A) (body : A -> M unit) :
  (forall a, raises_only P (body a)) -> raises_only P (for_each l body).
Proof.
  intros Hb. induction l as [|x r IH]; cbn [for_each].
  - apply raises_only_ret.
  - apply raises_only_bind; auto.
Qed.

Lemma raises_only_getitem d key :
  raises_only no_major_problem (getitem d key).
Proof.
  unfold getitem. destruct (d !! key).
  - apply raises_only_ret.
  - apply raises_only_raise. reflexivity.
Qed.

(** One step along the shape of [m] in a goal [raises_only P m]. *)
Ltac raises_step :=
  first
    [ apply raises_only_ret | apply raises_only_emit
    | apply raises_only_get_page | apply raises_only_request
    | apply raises_only_getitem
    | apply raises_only_raise; first [reflexivity | assumption]
    | apply raises_only_bind; [| intros ? ]
    | apply raises_only_for_each; intros ?
    | match goal with
      | |- raises_only _ (if ?b then _ else _) => destruct b
      | |- raises_only _ (match ?x with _ => _ end) => destruct x
      | |- raises_only _ (let '(_, _) := ?x in _) => destruct x
      end ].

Ltac raises := repeat raises_step.

Section NoMajorProblem.
Context `{Collaborators}.
Hypothesis outside : outside_raises_no_major_problem.

Lemma should_set_location_raises old new desc :
  raises_only no_major_problem (should_set_location old new desc).
Proof. unfold should_set_location, int_prec, log. raises. Qed.

Lemma get_sdc_statements_raises :
  raises_only no_major_problem get_sdc_statements.
Proof.
  destruct outside as (_ & _ & _ & _ & Hw & _).
  unfold get_sdc_statements.
  apply raises_only_bind; [raises|]. intros p.
  apply raises_only_bind; [apply raises_only_submit; intros ? ?; apply Hw|].
  intros data. raises.
Qed.

Lemma update_locations_raises row tree mapit oc oo :
  raises_only no_major_problem (update_locations row tree mapit oc oo).
Proof.
  pose proof should_set_location_raises.
  pose proof get_sdc_statements_raises.
  unfold update_locations, has_sdc_geocoding, log.
  repeat first
    [ apply should_set_location_raises | apply get_sdc_statements_raises
    | raises_step ].
Qed.

Lemma update_creditline_raises row tree :
  raises_only no_major_problem (update_creditline row tree).
Proof.
  unfold update_creditline, unmodified_on_geograph_since_upload, log. raises.
Qed.

Lemma snapshot_and_decide_raises :
  raises_only no_major_problem snapshot_and_decide.
Proof.
  destruct outside as (Hid & Hrow & Hcam & Hobj & _ & _).
  unfold snapshot_and_decide, log.
  apply raises_only_bind; [raises|]. intros p.
  apply raises_only_bind; [raises|]. intros p1.
  apply raises_only_bind.
  { apply raises_only_try_except.
    - apply raises_only_lift. intros e. apply Hid.
    - intros e He. raises. }
  intros id. apply raises_only_bind.
  { apply raises_only_lift. intros e. apply Hrow. }
  intros found. apply raises_only_bind; [raises|]. intros row.
  apply raises_only_bind.
  { apply raises_only_try_except.
    - apply raises_only_bind; [| intros; raises].
      apply raises_only_lift. intros e. apply Hcam.
    - intros e He. raises. }
  intros oc. apply raises_only_bind.
  { apply raises_only_try_except.
    - apply raises_only_bind; [| intros; raises].
      apply raises_only_lift. intros e. apply Hobj.
    - intros e He. raises. }
  intros oo.
  apply raises_only_bind; [raises|]. intros u1.
  apply raises_only_bind; [raises|]. intros u2.
  apply raises_only_bind; [apply update_locations_raises|]. intros l.
  apply raises_only_bind; [apply update_creditline_raises|]. intros c.
  raises.
Qed.

(** X21. [process_page] raises no [MajorProblem] of its own: when none of
    the collaborators that can raise (the readers of the tree, the query on
    the database, the requests to the wiki) raises one, no exception that
    leaves [process_page] is a [MajorProblem]. *)
Theorem process_page_raises_no_major_problem depth :
  raises_only no_major_problem (process_page depth).
Proof.
  induction depth as [|depth IH]; cbn [process_page].
  - apply raises_only_raise. reflexivity.
  - apply raises_only_bind; [apply snapshot_and_decide_raises|]. intros d.
    apply raises_only_bind; [raises|]. intros p.
    destruct (negb _); [| raises].
    apply raises_only_bind; [unfold log; raises|]. intros u.
    apply raises_only_bind; [raises|]. intros p2.
    destruct (negb _).
    + apply raises_only_bind; [unfold log; raises|]. intros u2. exact IH.
    + apply raises_only_bind; [unfold set_text; intros ? ? ? E; discriminate E|].
      intros u3. destruct outside as (_ & _ & _ & _ & _ & Hs).
      intros w e w'. unfold save.
      destruct (save_page _ _ _) as [e0|r] eqn:E; [| discriminate].
      intros [= <- _]. exact (Hs _ _ _ _ E).
Qed.
End NoMajorProblem.

(** The small wiki raises [IndexError] and [ValueError] only. *)
Lemma process_page_raises_no_major_problem_witness :
  @outside_raises_no_major_problem Demo.plain
  /\ @raises_only no_major_problem unit (@process_page Demo.plain 1).
Proof.
  assert (Hget : forall name tree e,
            Demo.get name tree = inl e -> no_major_problem e).
  { intros name tree e. unfold Demo.get.
    destruct (find (Demo.named name) tree) as [[x|t]|];
      intros [= <-]; reflexivity. }
  assert (H1 : @outside_raises_no_major_problem Demo.plain).
  { repeat split.
    - intros tree e. cbn. unfold Demo.get_id.
      destruct (Demo.get "Geograph" tree) as [e0|t] eqn:E.
      + intros [= <-]. exact (Hget _ _ _ E).
      + destruct (template_get t "1") as [p|]; [| intros [= <-]; reflexivity].
        destruct (Py.int (param_value p)); [discriminate|].
        intros [= <-]. reflexivity.
    - intros id e E. discriminate E.
    - intros tree e. apply Hget.
    - intros tree e. apply Hget.
    - intros mediaid p e E. discriminate E.
    - intros p summary minor e E. discriminate E. }
  split; [exact H1|].
  exact (@process_page_raises_no_major_problem Demo.plain H1 1%nat).
Defined.
